(** * ibis backends: file namespace walker, PySpark client, pandas constants

    A shallow embedding of
    - [ibis/backends/base/file/__init__.py] (FileClient, FileDatabase),
    - [ibis/backends/pyspark/client.py] (PySparkTable, PySparkClient),
    - [ibis/backends/pandas/execution/constants.py] (BINARY_OPERATIONS),
    with the properties of their public contracts. *)

From Stdlib Require Import String Ascii ZArith.
From stdpp Require Import base list strings gmap.
From stdpp Require Import sorting.

Local Open Scope string_scope.
Local Open Scope list_scope.

(* stdpp keeps [simpl] from unfolding string concatenation; the proofs
   below compute with it. *)
#[local] Arguments String.append !_ _ : simpl nomatch.

(** ** Python exceptions and the error monad *)

Inductive exn : Type :=
  | AttributeError (name : string)
  | NotImplementedError
  | KeyError (key : string)
  | IbisError (msg : string)
  | IbisInputError (msg : string)
  | ReError (pattern : string).

Inductive result (A : Type) : Type :=
  | Ok (a : A)
  | Raise (e : exn).
Arguments Ok {A} a.
Arguments Raise {A} e.

Definition rbind {A B} (r : result A) (k : A -> result B) : result B :=
  match r with
  | Ok a => k a
  | Raise e => Raise e
  end.

Notation "x <-r c ;; k" := (rbind c (fun x => k))
  (at level 100, c at next level, right associativity).

(** ** Python string helpers *)

Module PyStr.

(** [s.endswith(suffix)] *)
Definition endswith (s suffix : string) : bool :=
  let n := String.length s in
  let k := String.length suffix in
  if (k <=? n)%nat
  then bool_decide (String.substring (n - k) k s = suffix)
  else false.

(** [s.rfind('.')], as an index from the left; [None] stands for -1. *)
Fixpoint rfind_dot (s : string) : option nat :=
  match s with
  | EmptyString => None
  | String c rest =>
      match rfind_dot rest with
      | Some i => Some (S i)
      | None => if bool_decide (c = "."%char) then Some 0%nat else None
      end
  end.

(** [name in names] on a list of strings *)
Definition mem (name : string) (names : list string) : bool :=
  bool_decide (name ∈ names).

End PyStr.

(** ** pathlib and the file system

    A [Path] is the list of its components below the file-system root, so
    [p / name] appends a component and [str(p)] joins them with slashes. The
    file system is a tree of directories and regular files; [iterdir] yields
    the entries of a directory in the order the tree stores them. *)

Module Pathlib.

Definition Path := list string.

#[warnings="-register-all"] Inductive fsnode : Type :=
  | File
  | Dir (entries : list (string * fsnode)).

Fixpoint find_entry (c : string) (es : list (string * fsnode)) : option fsnode :=
  match es with
  | [] => None
  | (n, nd) :: es' => if bool_decide (n = c) then Some nd else find_entry c es'
  end.

Fixpoint resolve (fs : fsnode) (p : Path) : option fsnode :=
  match p with
  | [] => Some fs
  | c :: cs =>
      match fs with
      | File => None
      | Dir es =>
          match find_entry c es with
          | Some nd => resolve nd cs
          | None => None
          end
      end
  end.

Definition is_dir (fs : fsnode) (p : Path) : bool :=
  match resolve fs p with
  | Some (Dir _) => true
  | _ => false
  end.

Definition is_file (fs : fsnode) (p : Path) : bool :=
  match resolve fs p with
  | Some File => true
  | _ => false
  end.

(** [p / name] for a single-component [name] *)
Definition div (p : Path) (name : string) : Path := p ++ [name].

(** [p.iterdir()] of a directory *)
Definition iterdir (fs : fsnode) (p : Path) : list Path :=
  match resolve fs p with
  | Some (Dir es) => map (fun e => div p (fst e)) es
  | _ => []
  end.

(** [p.name]: the last component *)
Definition name (p : Path) : string :=
  match last p with
  | Some c => c
  | None => ""
  end.

(** [p.stem]: the last component without its final suffix; a leading or a
    trailing dot starts no suffix. *)
Definition stem (p : Path) : string :=
  let nm := name p in
  match PyStr.rfind_dot nm with
  | Some i =>
      if (0 <? i)%nat && (i <? String.length nm - 1)%nat
      then String.substring 0 i nm
      else nm
  | None => nm
  end.

(** [str(p)] *)
Fixpoint str_components (p : Path) : string :=
  match p with
  | [] => ""
  | c :: cs => "/" +:+ c +:+ str_components cs
  end.

Definition str (p : Path) : string :=
  match p with
  | [] => "/"
  | _ => str_components p
  end.

End Pathlib.

(** ** ibis/backends/base/file/__init__.py *)

Module FileBackend.
Import Pathlib.

(** The three listing helpers a concrete backend binds [list_databases] and
    [list_tables] to; the base class leaves both unimplemented. *)
Inductive databases_policy := DatabasesUnimplemented | DatabasesDirs | DatabasesDirsOrFiles.
Inductive tables_policy := TablesUnimplemented | TablesFiles.

Record FileClient : Type := {
  extension : string;
  root : Path;
  filesystem : fsnode;
  list_databases_impl : databases_policy;
  list_tables_impl : tables_policy
}.

Record FileDatabase : Type := {
  db_name : string;
  db_client : FileClient;
  db_path : option Path
}.

Section Client.
Variable self : FileClient.

Let fs := filesystem self.

Definition path_or_root (path : option Path) : Path :=
  match path with
  | None => root self
  | Some p => p
  end.

(** [_list_tables_files] *)
Definition _list_tables_files (path : option Path) : list string :=
  let path := path_or_root path in
  if is_dir fs path then
    flat_map (fun d =>
      if is_file fs d then
        if PyStr.endswith (str d) (extension self) then [stem d] else []
      else []) (iterdir fs path)
  else if is_file fs path then
    if PyStr.endswith (str path) (extension self) then [stem path] else []
  else [].

(** [_list_databases_dirs] *)
Definition _list_databases_dirs (path : option Path) : list string :=
  let path := path_or_root path in
  if is_dir fs path then
    flat_map (fun d => if is_dir fs d then [name d] else []) (iterdir fs path)
  else [].

(** [_list_databases_dirs_or_files] *)
Definition _list_databases_dirs_or_files (path : option Path) : list string :=
  let path := path_or_root path in
  if is_dir fs path then
    flat_map (fun d =>
      if is_dir fs d then [name d]
      else if is_file fs d then
        if PyStr.endswith (str d) (extension self) then [stem d] else []
      else []) (iterdir fs path)
  else [].

Definition list_databases (path : option Path) : result (list string) :=
  match list_databases_impl self with
  | DatabasesUnimplemented => Raise NotImplementedError
  | DatabasesDirs => Ok (_list_databases_dirs path)
  | DatabasesDirsOrFiles => Ok (_list_databases_dirs_or_files path)
  end.

Definition list_tables (path : option Path) : result (list string) :=
  match list_tables_impl self with
  | TablesUnimplemented => Raise NotImplementedError
  | TablesFiles => Ok (_list_tables_files path)
  end.

(** [FileClient.database] *)
Definition database (name : option string) (path : option Path)
  : result FileDatabase :=
  match name with
  | None => Ok {| db_name := "root"; db_client := self; db_path := path |}
  | Some name =>
      dbs <-r list_databases path ;;
      if negb (PyStr.mem name dbs) then Raise (AttributeError name)
      else
        let path := path_or_root path in
        let new_name := name +:+ "." +:+ extension self in
        let path :=
          if is_dir fs (div (root self) name) then div path name
          else if negb (PyStr.endswith (str path) new_name)
               then div path new_name
               else path in
        Ok {| db_name := name; db_client := self; db_path := Some path |}
  end.

End Client.

(** [FileDatabase]: a namespace node. [FileClient.table] is left to the
    format-specific subclasses, so the client's table lookup is a parameter
    of the node's operations. *)
Section Database.
Variable Table : Type.
Variable client_table : FileClient -> string -> option Path -> result Table.

Inductive member : Type :=
  | MemberTable (t : Table)
  | MemberDatabase (d : FileDatabase).

(** [FileDatabase.table] *)
Definition db_table (self : FileDatabase) (name : string) (path : option Path)
  : result Table :=
  client_table (db_client self) name path.

(** [FileDatabase.database] *)
Definition db_database (self : FileDatabase) (name : option string)
    (path : option Path) : result FileDatabase :=
  database (db_client self) name path.

(** [FileDatabase.__getattr__]: only [AttributeError] is caught. *)
Definition __getattr__ (self : FileDatabase) (name : string) : result member :=
  match db_table self name (db_path self) with
  | Ok t => Ok (MemberTable t)
  | Raise (AttributeError _) =>
      d <-r db_database self (Some name) (db_path self) ;;
      Ok (MemberDatabase d)
  | Raise e => Raise e
  end.

End Database.

End FileBackend.

(** ** Qualified names (ibis/backends/base/sql/ddl.py, used by the PySpark client) *)

Module QualifiedName.

Definition newline : ascii := ascii_of_nat 10.

(** The part of [s] before its first line break: in the pattern the dot
    matches any character but a line break. *)
Fixpoint first_line (s : string) : string :=
  match s with
  | EmptyString => EmptyString
  | String c rest =>
      if bool_decide (c = newline) then EmptyString else String c (first_line rest)
  end.

(** Split [s] at the last occurrence of [sep]. *)
Fixpoint rsplit (sep : ascii) (s : string) : option (string * string) :=
  match s with
  | EmptyString => None
  | String c rest =>
      match rsplit sep rest with
      | Some (a, b) => Some (String c a, b)
      | None => if bool_decide (c = sep) then Some (EmptyString, rest) else None
      end
  end.

Fixpoint contains (ch : ascii) (s : string) : bool :=
  match s with
  | EmptyString => false
  | String c rest => bool_decide (c = ch) || contains ch rest
  end.

(** Modelled from the spec: [fully_qualified_re] of the statement-builder
    module is not part of the sources at hand. A fully-qualified name is a
    [database.table] string whose table part is optionally backtick-quoted;
    the pattern has the three groups that [_match_name] unpacks (database,
    quoted table, unquoted table), each a greedy run of characters other
    than a line break. [fully_qualified_re_match s] is
    [fully_qualified_re.match(s).groups()], [None] when there is no match:
    the match is anchored at the start of [s], the database group extends
    to the last dot of the first line, and the quoted alternative is tried
    before the unquoted one. *)
Definition fully_qualified_re_match (s : string)
  : option (string * option string * option string) :=
  match rsplit "."%char (first_line s) with
  | None => None
  | Some (db, rest) =>
      match rest with
      | String "`"%char inner =>
          match rsplit "`"%char inner with
          | Some (quoted, _) => Some (db, Some quoted, None)
          | None => Some (db, None, Some rest)
          end
      | _ => Some (db, None, Some rest)
      end
  end.

(** Modelled from the spec: [is_fully_qualified] of the same module,
    [bool(fully_qualified_re.search(x))]. A search may start at any
    position, so it succeeds exactly when [x] holds a dot. *)
Definition is_fully_qualified (x : string) : bool := contains "."%char x.

End QualifiedName.

(** ** ibis/backends/pyspark/client.py *)

Module PySpark.
Import QualifiedName.

(** Truth value of an optional string: [None] and the empty string are falsy. *)
Definition truthy (s : option string) : bool :=
  match s with
  | Some (String _ _) => true
  | _ => false
  end.

(** [a or b] on optional strings *)
Definition py_or (a b : option string) : option string :=
  if truthy a then a else b.

(** [PySparkTable._match_name], on the qualified name of the table *)
Definition _match_name (_qualified_name : string) : option string * option string :=
  match fully_qualified_re_match _qualified_name with
  | None => (None, Some _qualified_name)
  | Some (db, quoted, unquoted) => (Some db, py_or quoted unquoted)
  end.

Definition _database (_qualified_name : string) : option string :=
  fst (_match_name _qualified_name).

Definition _unqualified_name (_qualified_name : string) : option string :=
  snd (_match_name _qualified_name).

(** [PySparkClient._fully_qualified_name] *)
Definition _fully_qualified_name (name : string) (database : option string) : string :=
  if is_fully_qualified name then name
  else match database with
       | Some (String _ _ as db) => db +:+ ".`" +:+ name +:+ "`"
       | _ => name
       end.

(** *** Catalog listings *)

Record Catalog : Type := {
  listDatabases : list string;
  listTables : option string -> list string
}.

Section Regex.
(** The [regex] module: compiling a pattern may fail ([re.error]);
    [match_start r s] says whether [r] matches at the start of [s]. *)
Variable regex : Type.
Variable re_compile : string -> option regex.
Variable match_start : regex -> string -> bool.

(** [re.match(pattern, s) is not None] *)
Definition re_match_is_not_None (pattern s : string) : result bool :=
  match re_compile pattern with
  | Some r => Ok (match_start r s)
  | None => Raise (ReError pattern)
  end.

(** [[x for x in results if re.match(like, x) is not None]] *)
Fixpoint filter_like (like : string) (results : list string) : result (list string) :=
  match results with
  | [] => Ok []
  | x :: rest =>
      b <-r re_match_is_not_None like x ;;
      kept <-r filter_like like rest ;;
      Ok (if b then x :: kept else kept)
  end.

(** [PySparkClient.list_tables] *)
Definition list_tables (catalog : Catalog) (like : option string)
    (database : option string) : result (list string) :=
  let results := listTables catalog database in
  if truthy like
  then match like with Some p => filter_like p results | None => Ok results end
  else Ok results.

(** [PySparkClient.list_databases] *)
Definition list_databases (catalog : Catalog) (like : option string)
  : result (list string) :=
  let results := listDatabases catalog in
  if truthy like
  then match like with Some p => filter_like p results | None => Ok results end
  else Ok results.

(** [bool(l)] of a list *)
Definition bool_of_list {A} (l : list A) : bool :=
  match l with [] => false | _ => true end.

(** [PySparkClient.exists_database] *)
Definition exists_database (catalog : Catalog) (name : string) : result bool :=
  l <-r list_databases catalog (Some name) ;;
  Ok (bool_of_list l).

End Regex.

(** *** The collaborators of the client

    The expression layer, its compiler and translator, the statement
    builders and the engine session live outside this module; the client
    only calls them. *)
Inductive expr_class := TableExpr | ColumnExpr | ScalarExpr | OtherExpr.

Class Collaborators : Type := {
  (* expression layer *)
  Expr : Type;
  dtype : Type;
  dtype_eq_dec :: EqDecision dtype;
  castable : dtype -> dtype -> bool;          (* lt.castable(rt) *)
  repr_dtype : dtype -> string;               (* '{!r}'.format(t) *)
  expr_schema : Expr -> list (string * dtype);(* expr.schema() *)
  class_of : Expr -> expr_class;              (* isinstance(expr, ...) *)
  type_str : Expr -> string;                  (* '{}'.format(type(expr)) *)
  expr_name : Expr -> string -> Expr;         (* expr.name(n) *)
  to_projection : Expr -> Expr;               (* expr.to_projection() *)
  (* compiler and statement builders *)
  Select : Type;
  to_ast_query : Expr -> Select;              (* compiler.to_ast(expr).queries[0] *)
  (* translator *)
  TimeContext : Type;
  Params : Type;
  Scope : Type;
  canonicalize_context : TimeContext -> TimeContext;
  localize_context : TimeContext -> string -> TimeContext;
  Scope_empty : Scope;                        (* Scope() *)
  Scope_of : Params -> option TimeContext -> Scope;
  (* engine and pandas values *)
  PandasDataFrame : Type;
  SparkDataFrame : Type;
  Column : Type;
  Series : Type;
  Scalar : Type;
  Values : Type;
  translate : Expr -> Scope -> option TimeContext -> SparkDataFrame + Column;
  session_timezone : string;                  (* conf.get('spark.sql.session.timeZone') *)
  range_select : Z -> Z -> Column -> SparkDataFrame; (* session.range(a, b).select(c) *)
  toPandas : SparkDataFrame -> PandasDataFrame;
  getitem : PandasDataFrame -> string -> Series;     (* df[name] *)
  iloc : PandasDataFrame -> Z -> Z -> Scalar         (* df.iloc[i, j] *)
}.

Section Client.
Context `{C : Collaborators}.

(** Modelled from the spec: the [Schema] class of the expression layer is
    not part of the sources at hand. A schema is an ordered mapping from
    column name to type: [names] lists the names in order, iteration
    yields the names, indexing by a name gives its type, and [equals]
    compares names and types in order. *)
Definition Schema := list (string * dtype).

Definition names (s : Schema) : list string := s.*1.

Definition schema_getitem (s : Schema) (name : string) : result dtype :=
  match (list_to_map s : gmap string dtype) !! name with
  | Some t => Ok t
  | None => Raise (KeyError name)
  end.

Definition schema_equals (a b : Schema) : bool := bool_decide (a = b).

(** Statements of the builder module, with the arguments the client
    passes; [compile_statement] is their [.compile()]. *)
Inductive Statement : Type :=
  | InsertSelect (table_name : string) (select : Select) (overwrite : bool)
  | CTAS (table_name : string) (select : Select) (database : option string)
         (can_exist : bool) (format : string)
  | CreateTableWithSchema (table_name : string) (schema : Schema)
         (database : option string) (format : string) (can_exist : bool).

Variable compile_statement : Statement -> string.

(** Calls that leave the client, in the order they are issued. *)
Inductive call : Type :=
  | CallCreateDataFrame (df : PandasDataFrame)
  | CallInsertInto (name : string) (overwrite : bool)
  | CallSaveAsTable (name format mode : string)
  | CallToAst (e : Expr)
  | CallCompile (s : Statement)
  | CallSql (stmt : string).

(** The client monad: a log of issued calls, and exceptions. *)
Definition M (A : Type) : Type := list call -> result A * list call.

Definition ret {A} (a : A) : M A := fun log => (Ok a, log).
Definition raise {A} (e : exn) : M A := fun log => (Raise e, log).
Definition issue (c : call) : M unit := fun log => (Ok tt, log ++ [c]).
Definition bind {A B} (m : M A) (k : A -> M B) : M B :=
  fun log =>
    match m log with
    | (Ok a, log') => k a log'
    | (Raise e, log') => (Raise e, log')
    end.
Definition lift {A} (r : result A) : M A := fun log => (r, log).

Notation "x <-m c ;; k" := (bind c (fun x => k))
  (at level 100, c at next level, right associativity).
Notation "c ;;m k" := (bind c (fun _ => k))
  (at level 100, right associativity).

(** [PySparkCursor(query)] for the query of a submitted statement *)
Inductive PySparkCursor := Cursor (stmt : string).

(** [PySparkClient.raw_sql] *)
Definition raw_sql (stmt : string) : M PySparkCursor :=
  issue (CallSql stmt) ;;m ret (Cursor stmt).

(** [statement.compile()] followed by [raw_sql] *)
Definition submit (statement : Statement) : M PySparkCursor :=
  issue (CallCompile statement) ;;m raw_sql (compile_statement statement).

(** An [obj] argument: a pandas DataFrame or a table expression. *)
Inductive table_obj : Type :=
  | ObjDataFrame (df : PandasDataFrame)
  | ObjExpr (e : Expr).

(** ['Cannot safely cast {0!r} to {1!r}'.format(lt, rt)] *)
Definition cast_message (lt rt : dtype) : string :=
  "Cannot safely cast " +:+ repr_dtype lt +:+ " to " +:+ repr_dtype rt.

(** [PySparkTable._validate_compatible]; [check_casts] is its loop over
    the names of [from_schema]. *)
Fixpoint check_casts (ns : list string) (from_schema to_schema : Schema)
  : result unit :=
  match ns with
  | [] => Ok tt
  | name :: rest =>
      lt <-r schema_getitem from_schema name ;;
      rt <-r schema_getitem to_schema name ;;
      if negb (castable lt rt)
      then Raise (IbisInputError (cast_message lt rt))
      else check_casts rest from_schema to_schema
  end.

Definition _validate_compatible (from_schema to_schema : Schema) : result unit :=
  if negb (bool_decide ((list_to_set (names from_schema) : gset string)
                        = list_to_set (names to_schema)))
  then Raise (IbisInputError "Schemas have different names")
  else check_casts (names from_schema) from_schema to_schema.

(** Column [n] has type [lt] in the source schema and [rt] in the
    destination schema, and [lt] is not safely castable to [rt]. *)
Definition unsafe_column (from_schema to_schema : Schema) (n : string)
    (lt rt : dtype) : Prop :=
  n ∈ names from_schema
  /\ schema_getitem from_schema n = Ok lt
  /\ schema_getitem to_schema n = Ok rt
  /\ castable lt rt = false.

(** A table handle: [self.name], [self._qualified_name] and
    [self.schema()]. *)
Record PySparkTable : Type := {
  op_name : string;
  _qualified_name : string;
  schema : Schema
}.

(** [PySparkTable.insert] with [obj] given *)
Definition insert (self : PySparkTable) (obj : table_obj) (overwrite : bool)
    (values : option Values) (validate : bool) : M (option PySparkCursor) :=
  match obj with
  | ObjDataFrame df =>
      issue (CallCreateDataFrame df) ;;m
      issue (CallInsertInto (op_name self) overwrite) ;;m
      ret None
  | ObjExpr expr =>
      match values with
      | Some _ => raise NotImplementedError
      | None =>
          (if validate then
             let existing_schema := schema self in
             let insert_schema := expr_schema expr in
             if negb (schema_equals insert_schema existing_schema)
             then lift (_validate_compatible insert_schema existing_schema)
             else ret tt
           else ret tt) ;;m
          issue (CallToAst expr) ;;m
          let select := to_ast_query expr in
          let statement := InsertSelect (_qualified_name self) select overwrite in
          cur <-m submit statement ;;
          ret (Some cur)
      end
  end.

(** [PySparkClient.create_table] *)
Definition create_table (table_name : string) (obj : option table_obj)
    (schema : option Schema) (database : option string) (force : bool)
    (format : string) : M (option PySparkCursor) :=
  match obj with
  | Some (ObjDataFrame df) =>
      issue (CallCreateDataFrame df) ;;m
      let mode := if force then "overwrite" else "error" in
      issue (CallSaveAsTable table_name format mode) ;;m
      ret None
  | Some (ObjExpr e) =>
      issue (CallToAst e) ;;m
      let select := to_ast_query e in
      cur <-m submit (CTAS table_name select database force format) ;;
      ret (Some cur)
  | None =>
      match schema with
      | Some sch =>
          cur <-m submit (CreateTableWithSchema table_name sch database format force) ;;
          ret (Some cur)
      | None => raise (IbisError "Must pass expr or schema")
      end
  end.

(** [PySparkClient.compile] *)
Definition compile (expr : Expr) (timecontext : option TimeContext)
    (params : option Params) : SparkDataFrame + Column :=
  let timecontext :=
    match timecontext with
    | Some tc => Some (localize_context (canonicalize_context tc) session_timezone)
    | None => None
    end in
  let scope :=
    match params with
    | None => Scope_empty
    | Some ps => Scope_of ps timecontext
    end in
  translate expr scope timecontext.

(** [compiled.toPandas()]: a bare column has no such method. *)
Definition compiled_toPandas (compiled : SparkDataFrame + Column)
  : result PandasDataFrame :=
  match compiled with
  | inl df => Ok (toPandas df)
  | inr _ => Raise (AttributeError "toPandas")
  end.

Inductive executed : Type :=
  | ExecTable (df : PandasDataFrame)
  | ExecColumn (s : Series)
  | ExecScalar (v : Scalar).

(** [PySparkClient.execute] *)
Definition execute (expr : Expr) (timecontext : option TimeContext)
    (params : option Params) : result executed :=
  match class_of expr with
  | TableExpr =>
      df <-r compiled_toPandas (compile expr timecontext params) ;;
      Ok (ExecTable df)
  | ColumnExpr =>
      let expr := expr_name expr "tmp" in
      df <-r compiled_toPandas (compile (to_projection expr) timecontext params) ;;
      Ok (ExecColumn (getitem df "tmp"))
  | ScalarExpr =>
      let compiled := compile expr timecontext params in
      let compiled :=
        match compiled with
        | inr col => inl (range_select 0 1 col)
        | inl df => inl df
        end in
      df <-r compiled_toPandas compiled ;;
      Ok (ExecScalar (iloc df 0 0))
  | OtherExpr =>
      Raise (IbisError ("Cannot execute expression of type: " +:+ type_str expr))
  end.

End Client.

End PySpark.

(** ** ibis/backends/pandas/execution/constants.py *)

Module PandasConstants.

(** Scalar operands: [None], the float NaN, integers, strings and booleans. *)
Inductive scalar : Type :=
  | PyNone
  | NaN
  | PyInt (z : Z)
  | PyStr (s : string)
  | PyBool (b : bool).

(** [pd.isnull(x)] *)
Definition isnull (x : scalar) : bool :=
  match x with
  | PyNone | NaN => true
  | _ => false
  end.

(** [x == y]: NaN equals nothing, itself included; [None] equals only
    [None]; a boolean compares as the integer it is. *)
Definition py_eq (x y : scalar) : bool :=
  match x, y with
  | PyNone, PyNone => true
  | PyInt a, PyInt b => (a =? b)%Z
  | PyStr a, PyStr b => bool_decide (a = b)
  | PyBool a, PyBool b => bool_decide (a = b)
  | PyBool a, PyInt b => (Z.b2z a =? b)%Z
  | PyInt a, PyBool b => (a =? Z.b2z b)%Z
  | _, _ => false
  end.

(** The binary operation nodes that key the table. *)
Inductive operation : Type :=
  | Greater | Less | LessEqual | GreaterEqual | Equals | NotEquals
  | And | Or | Xor
  | Add | Subtract | Multiply | Divide | FloorDivide | Modulus | Power
  | IdenticalTo.

(** The functions the table maps to: those of the [operator] module, and
    the one lambda. *)
Inductive callable : Type :=
  | operator_gt | operator_lt | operator_le | operator_ge
  | operator_eq | operator_ne
  | operator_and_ | operator_or_ | operator_xor
  | operator_add | operator_sub | operator_mul | operator_truediv
  | operator_floordiv | operator_mod | operator_pow
  | lambda_identical_to.

Definition BINARY_OPERATIONS (op : operation) : callable :=
  match op with
  | Greater => operator_gt
  | Less => operator_lt
  | LessEqual => operator_le
  | GreaterEqual => operator_ge
  | Equals => operator_eq
  | NotEquals => operator_ne
  | And => operator_and_
  | Or => operator_or_
  | Xor => operator_xor
  | Add => operator_add
  | Subtract => operator_sub
  | Multiply => operator_mul
  | Divide => operator_truediv
  | FloorDivide => operator_floordiv
  | Modulus => operator_mod
  | Power => operator_pow
  | IdenticalTo => lambda_identical_to
  end.

(** [lambda x, y: (x == y) | (pd.isnull(x) & pd.isnull(y))] *)
Definition identical_to (x y : scalar) : bool :=
  py_eq x y || (isnull x && isnull y).

(** Calling an equality function of the table on two scalars; the
    ordering, logical and arithmetic functions are not interpreted here. *)
Definition call_equality (f : callable) : option (scalar -> scalar -> bool) :=
  match f with
  | operator_eq => Some py_eq
  | operator_ne => Some (fun x y => negb (py_eq x y))
  | lambda_identical_to => Some identical_to
  | _ => None
  end.

End PandasConstants.

(** ** Concrete instances used to exercise the definitions *)

Module Examples.
Import Pathlib FileBackend.

(** A data directory with two CSV files, a table and a directory that
    share the name [foo], and a nested directory. *)
Definition tree : fsnode :=
  Dir [("data",
        Dir [("a.csv", File); ("b.csv", File); ("foo.csv", File);
             ("foo", Dir []);
             ("sub", Dir [("inner", Dir []); ("t.csv", File)])])].

Definition csv_client : FileClient :=
  {| extension := "csv"; root := ["data"]; filesystem := tree;
     list_databases_impl := DatabasesDirs; list_tables_impl := TablesFiles |}.

(** A table lookup in the manner of the CSV backend: the name must be in
    the table listing. *)
Definition csv_table (c : FileClient) (name : string) (path : option Path)
  : result string :=
  tabs <-r list_tables c path ;;
  if negb (PyStr.mem name tabs) then Raise (AttributeError name) else Ok name.

Definition data_db : FileDatabase :=
  {| db_name := "root"; db_client := csv_client; db_path := None |}.

(** The directory of testable property 1, with its entries in any order. *)
Definition abs_entries : list (string * fsnode) :=
  [("a.csv", File); ("b.csv", File); ("sub", Dir [])].

Definition abs_client : FileClient :=
  {| extension := "csv"; root := []; filesystem := Dir abs_entries;
     list_databases_impl := DatabasesDirsOrFiles; list_tables_impl := TablesFiles |}.

(** A matcher for the patterns built from literal characters, the dot and
    the star; every other pattern is rejected. *)
Module MiniRegex.

Inductive atom := Lit (c : ascii) | AnyChar.

(** An atom, and whether a star follows it. *)
Definition regex := list (atom * bool).

Definition is_meta (c : ascii) : bool :=
  bool_decide (c ∈ String.list_ascii_of_string "\^$+?()[]{}|").

Fixpoint parse (s : string) : option regex :=
  match s with
  | EmptyString => Some []
  | String c rest =>
      if bool_decide (c = "*"%char) || is_meta c then None
      else
        let a := if bool_decide (c = "."%char) then AnyChar else Lit c in
        match rest with
        | String "*"%char rest' =>
            match parse rest' with
            | Some r => Some ((a, true) :: r)
            | None => None
            end
        | _ =>
            match parse rest with
            | Some r => Some ((a, false) :: r)
            | None => None
            end
        end
  end.

Definition accepts (a : atom) (c : ascii) : bool :=
  match a with
  | Lit c' => bool_decide (c = c')
  | AnyChar => negb (bool_decide (c = QualifiedName.newline))
  end.

(** Whether [r] matches a prefix of [s]. *)
Fixpoint match_start (r : regex) (s : string) : bool :=
  match r with
  | [] => true
  | (a, false) :: r' =>
      match s with
      | String c s' => accepts a c && match_start r' s'
      | EmptyString => false
      end
  | (a, true) :: r' =>
      (fix star (s : string) : bool :=
         match_start r' s ||
         match s with
         | String c s' => accepts a c && star s'
         | EmptyString => false
         end) s
  end.

End MiniRegex.

(** A small expression layer and engine: expressions carry their class
    and schema, and three column types with the one widening cast. *)
Inductive toy_dtype := int32 | int64 | string_.

#[export] Instance toy_dtype_eq_dec : EqDecision toy_dtype.
Proof. solve_decision. Defined.

Definition toy_castable (a b : toy_dtype) : bool :=
  match a, b with
  | int32, int32 | int32, int64 | int64, int64 | string_, string_ => true
  | _, _ => false
  end.

Definition toy_repr (t : toy_dtype) : string :=
  match t with int32 => "int32" | int64 => "int64" | string_ => "string" end.

Record toy_expr : Type := {
  toy_class : PySpark.expr_class;
  toy_schema : list (string * toy_dtype);
  toy_label : string
}.

#[export] Instance toy : PySpark.Collaborators := {|
  PySpark.Expr := toy_expr;
  PySpark.dtype := toy_dtype;
  PySpark.castable := toy_castable;
  PySpark.repr_dtype := toy_repr;
  PySpark.expr_schema := toy_schema;
  PySpark.class_of := toy_class;
  PySpark.type_str := toy_label;
  PySpark.expr_name := fun e n =>
    {| toy_class := toy_class e; toy_schema := toy_schema e; toy_label := n |};
  PySpark.to_projection := fun e =>
    {| toy_class := PySpark.TableExpr; toy_schema := toy_schema e;
       toy_label := toy_label e |};
  PySpark.Select := string;
  PySpark.to_ast_query := fun e => "SELECT * FROM " +:+ toy_label e;
  PySpark.TimeContext := unit;
  PySpark.Params := unit;
  PySpark.Scope := unit;
  PySpark.canonicalize_context := fun tc => tc;
  PySpark.localize_context := fun tc _ => tc;
  PySpark.Scope_empty := tt;
  PySpark.Scope_of := fun _ _ => tt;
  PySpark.PandasDataFrame := string;
  PySpark.SparkDataFrame := string;
  PySpark.Column := string;
  PySpark.Series := string;
  PySpark.Scalar := string;
  PySpark.Values := unit;
  PySpark.translate := fun e _ _ =>
    match toy_class e with
    | PySpark.ScalarExpr => inr (toy_label e)
    | _ => inl (toy_label e)
    end;
  PySpark.session_timezone := "UTC";
  PySpark.range_select := fun _ _ c => "range.select(" +:+ c +:+ ")";
  PySpark.toPandas := fun df => df;
  PySpark.getitem := fun df n => df +:+ "[" +:+ n +:+ "]";
  PySpark.iloc := fun df _ _ => df +:+ ".iloc"
|}.

(** A catalog, and the parsed form of two patterns. *)
Definition foo_catalog : PySpark.Catalog :=
  {| PySpark.listDatabases := ["default"; "foobar"];
     PySpark.listTables := fun _ => ["foo_1"; "bar"; "foo_2"; "xfoo"] |}.

Definition foo_dot : MiniRegex.regex :=
  [(MiniRegex.Lit "f", false); (MiniRegex.Lit "o", false);
   (MiniRegex.Lit "o", false); (MiniRegex.AnyChar, false)].

Definition foo_dot_star : MiniRegex.regex :=
  [(MiniRegex.Lit "f", false); (MiniRegex.Lit "o", false);
   (MiniRegex.Lit "o", false); (MiniRegex.AnyChar, true)].

Definition toy_compile_statement (s : PySpark.Statement) : string :=
  match s with
  | PySpark.InsertSelect t sel _ => "INSERT INTO " +:+ t +:+ " " +:+ sel
  | PySpark.CTAS t sel _ _ _ => "CREATE TABLE " +:+ t +:+ " AS " +:+ sel
  | PySpark.CreateTableWithSchema t _ _ _ _ => "CREATE TABLE " +:+ t
  end.

(** Tables and expressions over the small engine. *)
Definition staging : toy_expr :=
  {| toy_class := PySpark.TableExpr;
     toy_schema := [("a", int32); ("b", string_)];
     toy_label := "staging" |}.

Definition events_wide : PySpark.PySparkTable :=
  {| PySpark.op_name := "events"; PySpark._qualified_name := "analytics.`events`";
     PySpark.schema := [("a", int64); ("b", string_)] |}.

Definition events_text : PySpark.PySparkTable :=
  {| PySpark.op_name := "events"; PySpark._qualified_name := "analytics.`events`";
     PySpark.schema := [("a", string_); ("b", string_)] |}.

Definition events_renamed : PySpark.PySparkTable :=
  {| PySpark.op_name := "events"; PySpark._qualified_name := "analytics.`events`";
     PySpark.schema := [("c", int64); ("b", string_)] |}.

Definition total : toy_expr :=
  {| toy_class := PySpark.ScalarExpr; toy_schema := []; toy_label := "total" |}.

Definition amount : toy_expr :=
  {| toy_class := PySpark.ColumnExpr; toy_schema := []; toy_label := "amount" |}.

Definition top_k : toy_expr :=
  {| toy_class := PySpark.OtherExpr; toy_schema := []; toy_label := "TopKExpr" |}.

End Examples.

(** ** More of ibis/backends/base/file/__init__.py: the listings of a node *)

Module FileNamespace.
Import Pathlib FileBackend.

(** [sorted(l)] on strings: ascending, by code point. *)
Definition sorted (l : list string) : list string := merge_sort String.le l.

(** [FileDatabase.list_databases] *)
Definition db_list_databases (self : FileDatabase) (path : option Path)
  : result (list string) :=
  let path := match path with None => db_path self | Some p => Some p end in
  dbs <-r list_databases (db_client self) path ;;
  Ok (sorted dbs).

(** [FileDatabase.list_tables] *)
Definition db_list_tables (self : FileDatabase) (path : option Path)
  : result (list string) :=
  let path := match path with None => db_path self | Some p => Some p end in
  tables <-r list_tables (db_client self) path ;;
  Ok (sorted tables).

(** [FileDatabase.__dir__] *)
Definition __dir__ (self : FileDatabase) : result (list string) :=
  dbs <-r db_list_databases self (db_path self) ;;
  tables <-r db_list_tables self (db_path self) ;;
  Ok (sorted (elements ((list_to_set dbs : gset string) ∪ list_to_set tables))).

End FileNamespace.

(** ** More of ibis/backends/pyspark/client.py: statistics and renaming *)

Module PySparkOps.
Import QualifiedName PySpark.

Section Ops.
Context `{C : Collaborators}.

Notation "c ;;m k" := (bind c (fun _ => k))
  (at level 100, right associativity).

(** [PySparkClient.compute_stats] *)
Definition PySparkClient_compute_stats (name : string) (database : option string)
    (noscan : bool) : M PySparkCursor :=
  let maybe_noscan := if noscan then " NOSCAN" else "" in
  let stmt := "ANALYZE TABLE " +:+ _fully_qualified_name name database
              +:+ " COMPUTE STATISTICS" +:+ maybe_noscan in
  raw_sql stmt.

(** [PySparkTable.compute_stats] *)
Definition PySparkTable_compute_stats (self : PySparkTable) (noscan : bool)
  : M PySparkCursor :=
  PySparkClient_compute_stats (_qualified_name self) None noscan.

(** The statement [ddl.RenameTable(old_name, new_name)] of the builder
    module; [compile_rename] is its [.compile()]. *)
Inductive RenameTable := MkRenameTable (old_name new_name : string).

Variable compile_rename : RenameTable -> string.

(** [PySparkTable.rename]: the new handle is the node of [self] with its
    name changed to the new qualified name. *)
Definition rename (self : PySparkTable) (new_name : string) : M PySparkTable :=
  let new_qualified_name :=
    _fully_qualified_name new_name (_database (_qualified_name self)) in
  let statement := MkRenameTable (_qualified_name self) new_name in
  raw_sql (compile_rename statement) ;;m
  ret {| op_name := new_qualified_name;
         _qualified_name := new_qualified_name;
         schema := schema self |}.

End Ops.

Section CatalogLookup.

(** The catalog entry of a table: [jtable.name()] and [jtable.database()]. *)
Record JTable : Type := { jtable_name : string; jtable_database : option string }.

(** [self._catalog._jcatalog.getTable(name)]: the entry, or the text of the
    [AnalysisException] it raises. *)
Variable getTable : string -> string + JTable.

(** [PySparkClient._get_jtable] *)
Definition _get_jtable (name : string) (database : option string) : result JTable :=
  match getTable (_fully_qualified_name name database) with
  | inr jtable => Ok jtable
  | inl msg => Raise (IbisInputError msg)
  end.

(** [PySparkClient.exists_table]: only [IbisInputError] is caught. *)
Definition exists_table (name : string) (database : option string) : result bool :=
  match _get_jtable name database with
  | Ok _ => Ok true
  | Raise (IbisInputError _) => Ok false
  | Raise e => Raise e
  end.

End CatalogLookup.

End PySparkOps.

(** ** More of ibis/backends/pandas/execution/constants.py: join suffixes *)

Module JoinSuffixes.

Section Guids.
(** The results of the two calls of [ibis.util.guid()]. *)
Variables guid_left guid_right : string.

Definition LEFT_JOIN_SUFFIX : string := "_ibis_left_" +:+ guid_left.
Definition RIGHT_JOIN_SUFFIX : string := "_ibis_right_" +:+ guid_right.
Definition JOIN_SUFFIXES : string * string := (LEFT_JOIN_SUFFIX, RIGHT_JOIN_SUFFIX).

(** The dict display inserts its two items in order. *)
Definition ALTERNATE_SUFFIXES : gmap string string :=
  <[RIGHT_JOIN_SUFFIX := LEFT_JOIN_SUFFIX]>
    (<[LEFT_JOIN_SUFFIX := RIGHT_JOIN_SUFFIX]> ∅).

End Guids.

End JoinSuffixes.

(** ** Further instances *)

Module MoreExamples.
Import Pathlib FileBackend PySpark Examples.

Definition sub_db : FileDatabase :=
  {| db_name := "sub"; db_client := csv_client; db_path := Some ["data"; "sub"] |}.

Definition toy_compile_rename (s : PySparkOps.RenameTable) : string :=
  match s with
  | PySparkOps.MkRenameTable old new => "ALTER TABLE " +:+ old +:+ " RENAME TO " +:+ new
  end.

Definition events_swapped : PySparkTable :=
  {| op_name := "events"; _qualified_name := "analytics.`events`";
     schema := [("b", string_); ("a", int64)] |}.

Definition empty_catalog : Catalog :=
  {| listDatabases := []; listTables := fun _ => [] |}.

(** A catalog of tables with the one entry [analytics.`events`]. *)
Definition one_table (name : string) : string + PySparkOps.JTable :=
  if bool_decide (name = "analytics.`events`")
  then inr {| PySparkOps.jtable_name := "events";
              PySparkOps.jtable_database := Some "analytics" |}
  else inl ("Table or view not found: " +:+ name).

End MoreExamples.

(** * Properties *)

(** ** Strings and paths *)

Section StringFacts.

Lemma length_append (x y : string) :
  String.length (x +:+ y) = (String.length x + String.length y)%nat.
Proof. induction x as [|c x IH]; simpl; [done | by rewrite IH]. Qed.

Lemma substring_append_skip (x y : string) (m k : nat) :
  String.substring (String.length x + m) k (x +:+ y) = String.substring m k y.
Proof. induction x as [|c x IH]; simpl; [done | apply IH]. Qed.

(** Whether a string ends with [suffix] is decided by any tail of it that
    is at least as long as [suffix]. *)
Lemma endswith_append (x y suffix : string) :
  (String.length suffix <= String.length y)%nat ->
  PyStr.endswith (x +:+ y) suffix = PyStr.endswith y suffix.
Proof.
  intros Hle. unfold PyStr.endswith. rewrite length_append.
  assert (Hn : (String.length suffix <=? String.length x + String.length y)%nat = true)
    by (apply Nat.leb_le; lia).
  assert (Hy : (String.length suffix <=? String.length y)%nat = true)
    by (by apply Nat.leb_le).
  rewrite Hn, Hy.
  replace (String.length x + String.length y - String.length suffix)%nat
    with (String.length x + (String.length y - String.length suffix))%nat by lia.
  by rewrite substring_append_skip.
Qed.

Lemma append_assoc (x y z : string) : (x +:+ y) +:+ z = x +:+ (y +:+ z).
Proof. induction x as [|c x IH]; simpl; [done | by rewrite IH]. Qed.

Lemma append_nil_r (x : string) : x +:+ "" = x.
Proof. induction x as [|c x IH]; simpl; [done | by rewrite IH]. Qed.

Lemma str_components_app (p q : Pathlib.Path) :
  Pathlib.str_components (p ++ q)
  = Pathlib.str_components p +:+ Pathlib.str_components q.
Proof.
  induction p as [|c p IH]; simpl; [done|].
  rewrite IH. by rewrite <- !append_assoc.
Qed.

Lemma str_div (p : Pathlib.Path) (n : string) :
  Pathlib.str (Pathlib.div p n) = Pathlib.str_components p +:+ ("/" +:+ n).
Proof.
  unfold Pathlib.div, Pathlib.str.
  destruct (p ++ [n]) eqn:E; [by destruct p|].
  rewrite <- E, str_components_app. simpl. by rewrite append_nil_r.
Qed.

Lemma resolve_app (fs : Pathlib.fsnode) (p q : Pathlib.Path) :
  Pathlib.resolve fs (p ++ q)
  = match Pathlib.resolve fs p with
    | Some nd => Pathlib.resolve nd q
    | None => None
    end.
Proof.
  revert fs. induction p as [|c p IH]; intros fs; simpl; [done|].
  destruct fs as [|es]; [done|].
  destruct (Pathlib.find_entry c es); [apply IH | done].
Qed.

Lemma name_div (p : Pathlib.Path) (n : string) : Pathlib.name (Pathlib.div p n) = n.
Proof. unfold Pathlib.name, Pathlib.div. by rewrite last_snoc. Qed.

End StringFacts.

(** ** The namespace walker *)

Section Walker.
Import Pathlib FileBackend.

Lemma is_dir_div fs p es n :
  resolve fs p = Some (Dir es) ->
  is_dir fs (div p n)
  = match find_entry n es with Some (Dir _) => true | _ => false end.
Proof.
  intros H. unfold is_dir, div. rewrite resolve_app, H. simpl.
  by destruct (find_entry n es).
Qed.

Lemma is_file_div fs p es n :
  resolve fs p = Some (Dir es) ->
  is_file fs (div p n)
  = match find_entry n es with Some File => true | _ => false end.
Proof.
  intros H. unfold is_file, div. rewrite resolve_app, H. simpl.
  by destruct (find_entry n es).
Qed.

Lemma stem_div p n : stem (div p n) = stem [n].
Proof. unfold stem. by rewrite name_div. Qed.

Lemma iterdir_dir fs p es :
  resolve fs p = Some (Dir es) -> iterdir fs p = map (fun e => div p (fst e)) es.
Proof. intros H. unfold iterdir. by rewrite H. Qed.

Lemma is_dir_resolve fs p es : resolve fs p = Some (Dir es) -> is_dir fs p = true.
Proof. intros H. unfold is_dir. by rewrite H. Qed.

Ltac eval_closed f :=
  repeat match goal with
         | |- context [f ?a ?b] =>
             let v := eval vm_compute in (f a b) in change (f a b) with v
         end.

Ltac walk_entries H Hext :=
  unfold _list_databases_dirs_or_files, _list_databases_dirs, _list_tables_files,
    path_or_root; simpl;
  rewrite !(is_dir_resolve _ _ _ H), !(iterdir_dir _ _ _ H); simpl;
  rewrite ?(is_dir_div _ _ _ _ H), ?(is_file_div _ _ _ _ H), ?stem_div, ?name_div, ?str_div;
  simpl;
  rewrite ?Hext; rewrite ?endswith_append by (simpl; lia);
  eval_closed PyStr.endswith;
  repeat match goal with
         | |- context [stem ?p] =>
             let v := eval vm_compute in (stem p) in change (stem p) with v
         end;
  simpl.

(** C6 (as stated, refuted): in directories-and-files mode the listing of
    databases of the directory with [a.csv], [b.csv] and [sub/] is not
    [{sub}]: the two files contribute the entries [a] and [b]. *)
Lemma C6_files_are_listed_as_databases :
  _list_databases_dirs_or_files Examples.abs_client None = ["a"; "b"; "sub"]
  /\ (list_to_set (_list_databases_dirs_or_files Examples.abs_client None)
       : gset string) <> {["sub"]}.
Proof.
  split; [by vm_compute|].
  intros Heq.
  assert (Hin : "a" ∈ (list_to_set
    (_list_databases_dirs_or_files Examples.abs_client None) : gset string)).
  { apply elem_of_list_to_set. vm_compute. left. }
  rewrite Heq in Hin. apply elem_of_singleton in Hin. discriminate Hin.
Qed.

(** C6 (amended): for a directory whose entries are the files [a.csv] and
    [b.csv] and the subdirectory [sub/], in any order and wherever the
    directory lies, with extension [csv]: the directories-and-files mode
    lists the databases [{a, b, sub}], the directories-only mode lists
    [{sub}], and the tables are [{a, b}]. *)
Theorem C6_walker_listings (c : FileClient) (es sub_entries : list (string * fsnode)) :
  extension c = "csv" ->
  resolve (filesystem c) (root c) = Some (Dir es) ->
  es ≡ₚ [("a.csv", File); ("b.csv", File); ("sub", Dir sub_entries)] ->
  (list_to_set (_list_databases_dirs_or_files c None) : gset string)
    = {["a"; "b"; "sub"]}
  /\ (list_to_set (_list_databases_dirs c None) : gset string) = {["sub"]}
  /\ (list_to_set (_list_tables_files c None) : gset string) = {["a"; "b"]}.
Proof.
  intros Hext Hroot Hperm.
  symmetry in Hperm. apply permutations_Permutation in Hperm.
  apply list_elem_of_In in Hperm. simpl in Hperm.
  destruct Hperm as [<-|[<-|[<-|[<-|[<-|[<-|[]]]]]]];
    (split; [|split]); walk_entries Hroot Hext; set_solver.
Qed.

Lemma C6_walker_listings_witness :
  (list_to_set (_list_databases_dirs_or_files Examples.abs_client None) : gset string)
    = {["a"; "b"; "sub"]}
  /\ (list_to_set (_list_databases_dirs Examples.abs_client None) : gset string)
    = {["sub"]}
  /\ (list_to_set (_list_tables_files Examples.abs_client None) : gset string)
    = {["a"; "b"]}.
Proof.
  apply (C6_walker_listings Examples.abs_client Examples.abs_entries []);
    reflexivity.
Defined.

End Walker.

(** ** The File Client and the File Database *)

Section FileClientFacts.
Import Pathlib FileBackend.

(** A name that is not in the listing of databases is not found. *)
Lemma database_not_listed (c : FileClient) (name : string) (path : option Path)
    (dbs : list string) :
  list_databases c path = Ok dbs ->
  name ∉ dbs ->
  database c (Some name) path = Raise (AttributeError name).
Proof.
  intros Hl Hn. unfold database. rewrite Hl. simpl.
  unfold PyStr.mem. by rewrite bool_decide_eq_false_2.
Qed.

(** A listed name that is a directory under the root of the client is
    bound to [path / name]. *)
Lemma database_listed_directory (c : FileClient) (name : string)
    (path : option Path) (dbs : list string) :
  list_databases c path = Ok dbs ->
  name ∈ dbs ->
  is_dir (filesystem c) (div (root c) name) = true ->
  database c (Some name) path
  = Ok {| db_name := name; db_client := c;
          db_path := Some (div (path_or_root c path) name) |}.
Proof.
  intros Hl Hn Hd. unfold database. rewrite Hl. simpl.
  unfold PyStr.mem. rewrite bool_decide_eq_true_2 by done. simpl.
  by rewrite Hd.
Qed.

(** C5 (the code at the failing input): [inner] is a subdirectory of
    [data/sub] and is listed there, yet [database('inner', data/sub)] is
    bound to [data/sub/inner.csv], a path that does not exist, and not to
    [data/sub/inner]: the directory test looks under the root of the
    client, not under [path]. *)
Theorem C5_database_nested_directory :
  list_databases Examples.csv_client (Some ["data"; "sub"]) = Ok ["inner"]
  /\ is_dir Examples.tree ["data"; "sub"; "inner"] = true
  /\ is_dir Examples.tree (div (root Examples.csv_client) "inner") = false
  /\ database Examples.csv_client (Some "inner") (Some ["data"; "sub"])
     = Ok {| db_name := "inner"; db_client := Examples.csv_client;
             db_path := Some ["data"; "sub"; "inner.csv"] |}
  /\ resolve Examples.tree ["data"; "sub"; "inner.csv"] = None.
Proof. vm_compute. done. Qed.

Section Getattr.
Variable Table : Type.
Variable client_table : FileClient -> string -> option Path -> result Table.

Abbreviation getattr := (__getattr__ Table client_table).
Abbreviation table := (db_table Table client_table).

(** C3: attribute lookup on a File Database node tries the table first
    and returns it when found (also when a database of that name
    exists); when the table lookup fails with a not-found condition it
    returns what the database lookup of the same name returns, and when
    that fails with a not-found condition as well the whole lookup fails
    with a not-found condition. *)
Theorem C3_getattr_table_then_database (self : FileDatabase) (name : string) :
  (forall t, table self name (db_path self) = Ok t ->
     getattr self name = Ok (MemberTable Table t))
  /\ (forall n d,
        table self name (db_path self) = Raise (AttributeError n) ->
        db_database self (Some name) (db_path self) = Ok d ->
        getattr self name = Ok (MemberDatabase Table d))
  /\ (forall n n',
        table self name (db_path self) = Raise (AttributeError n) ->
        db_database self (Some name) (db_path self) = Raise (AttributeError n') ->
        getattr self name = Raise (AttributeError n'))
  /\ (forall t d,
        table self name (db_path self) = Ok t ->
        db_database self (Some name) (db_path self) = Ok d ->
        getattr self name = Ok (MemberTable Table t)).
Proof.
  unfold __getattr__. repeat split.
  - by intros t ->.
  - by intros n d -> ->.
  - by intros n n' -> ->.
  - by intros t d -> _.
Qed.

End Getattr.

Lemma C3_getattr_table_then_database_witness :
  __getattr__ string Examples.csv_table Examples.data_db "foo"
    = Ok (MemberTable string "foo")
  /\ __getattr__ string Examples.csv_table Examples.data_db "sub"
    = Ok (MemberDatabase string
            {| db_name := "sub"; db_client := Examples.csv_client;
               db_path := Some ["data"; "sub"] |})
  /\ __getattr__ string Examples.csv_table Examples.data_db "nope"
    = Raise (AttributeError "nope").
Proof.
  split; [|split].
  - destruct (C3_getattr_table_then_database string Examples.csv_table
                Examples.data_db "foo") as (_ & _ & _ & H).
    apply (H "foo" {| db_name := "foo"; db_client := Examples.csv_client;
                      db_path := Some ["data"; "foo"] |}); reflexivity.
  - destruct (C3_getattr_table_then_database string Examples.csv_table
                Examples.data_db "sub") as (_ & H & _).
    apply (H "sub"); reflexivity.
  - destruct (C3_getattr_table_then_database string Examples.csv_table
                Examples.data_db "nope") as (_ & _ & H & _).
    apply (H "nope" "nope"); reflexivity.
Defined.

End FileClientFacts.

(** ** Qualified names *)

Section QualifiedNameFacts.
Import QualifiedName PySpark.

Lemma contains_append ch (x y : string) :
  contains ch (x +:+ y) = contains ch x || contains ch y.
Proof.
  induction x as [|c x IH]; simpl; [done|].
  rewrite IH. by rewrite orb_assoc.
Qed.

Lemma first_line_no_newline (s : string) :
  contains newline s = false -> first_line s = s.
Proof.
  induction s as [|c s IH]; simpl; [done|].
  intros [Hc Hs]%orb_false_elim. rewrite Hc. by rewrite IH.
Qed.

Lemma rsplit_absent sep (s : string) :
  contains sep s = false -> rsplit sep s = None.
Proof.
  induction s as [|c s IH]; simpl; [done|].
  intros [Hc Hs]%orb_false_elim. by rewrite IH, Hc.
Qed.

(** Splitting at the last separator finds the one after which no
    separator occurs. *)
Lemma rsplit_last sep (x y : string) :
  contains sep y = false ->
  rsplit sep (x +:+ String sep y) = Some (x, y).
Proof.
  intros Hy. induction x as [|c x IH]; simpl.
  - rewrite rsplit_absent by done. by rewrite bool_decide_eq_true_2.
  - by rewrite IH.
Qed.

Lemma is_fully_qualified_qualified (d n : string) :
  is_fully_qualified (d +:+ ".`" +:+ n +:+ "`") = true.
Proof.
  unfold is_fully_qualified. rewrite contains_append. simpl.
  by rewrite orb_true_r.
Qed.

(** C4 (as stated, refuted): the empty table name is unqualified, and the
    name the qualifier builds from it parses to no table name at all. *)
Lemma C4_empty_name_is_lost :
  is_fully_qualified "" = false
  /\ _fully_qualified_name "" (Some "db") = "db.``"
  /\ _match_name (_fully_qualified_name "" (Some "db")) = (Some "db", None)
  /\ _match_name (_fully_qualified_name "" (Some "db")) <> (Some "db", Some "").
Proof. vm_compute. repeat split; discriminate. Qed.

(** C4 (amended): for a non-empty unqualified table name [n] and a
    non-empty database [d], neither holding a line break, parsing the name
    the qualifier builds from them gives back [d] and [n], and qualifying
    that name again changes nothing; the qualifier returns every name that
    is already fully qualified as it is. *)
Theorem C4_qualified_name_round_trip (n d : string) :
  n <> "" -> d <> "" ->
  is_fully_qualified n = false ->
  contains newline n = false -> contains newline d = false ->
  _match_name (_fully_qualified_name n (Some d)) = (Some d, Some n)
  /\ (forall database,
        _fully_qualified_name (_fully_qualified_name n (Some d)) database
        = _fully_qualified_name n (Some d))
  /\ (forall name database,
        is_fully_qualified name = true ->
        _fully_qualified_name name database = name).
Proof.
  intros Hn Hd Hq Hnl Hdl.
  assert (Hfq : _fully_qualified_name n (Some d) = d +:+ ".`" +:+ n +:+ "`").
  { unfold _fully_qualified_name. rewrite Hq. by destruct d. }
  repeat split.
  - rewrite Hfq. unfold _match_name, fully_qualified_re_match.
    rewrite first_line_no_newline.
    2:{ rewrite !contains_append, Hnl, Hdl. done. }
    change (d +:+ ".`" +:+ n +:+ "`")
      with (d +:+ String "."%char (String "`"%char (n +:+ "`"))).
    rewrite rsplit_last.
    2:{ simpl. rewrite contains_append. unfold is_fully_qualified in Hq.
        by rewrite Hq. }
    change (n +:+ "`") with (n +:+ String "`"%char "").
    rewrite rsplit_last by done.
    by destruct n.
  - intros database. rewrite Hfq. unfold _fully_qualified_name at 1.
    by rewrite is_fully_qualified_qualified.
  - intros name database Hname. unfold _fully_qualified_name. by rewrite Hname.
Qed.

Lemma C4_qualified_name_round_trip_witness :
  _match_name (_fully_qualified_name "events" (Some "analytics"))
    = (Some "analytics", Some "events")
  /\ _fully_qualified_name (_fully_qualified_name "events" (Some "analytics"))
       (Some "other")
     = "analytics.`events`".
Proof.
  destruct (C4_qualified_name_round_trip "events" "analytics") as (H1 & H2 & _);
    [discriminate | discriminate | reflexivity | reflexivity | reflexivity |].
  split; [exact H1 | exact (H2 (Some "other"))].
Defined.

End QualifiedNameFacts.

(** ** Catalog listings *)

Section ListingFacts.
Import PySpark.

Section WithRegex.
Variable regex : Type.
Variable re_compile : string -> option regex.
Variable match_start : regex -> string -> bool.

Abbreviation filter_like := (filter_like regex re_compile match_start).
Abbreviation list_tables := (list_tables regex re_compile match_start).
Abbreviation list_databases := (list_databases regex re_compile match_start).
Abbreviation exists_database := (exists_database regex re_compile match_start).

(** With a pattern that compiles, the comprehension is a filter. *)
Lemma filter_like_compiled (like : string) (r : regex) (results : list string) :
  re_compile like = Some r ->
  filter_like like results = Ok (List.filter (match_start r) results).
Proof.
  intros Hr. induction results as [|x rest IH]; simpl; [done|].
  unfold re_match_is_not_None. rewrite Hr. simpl. rewrite IH. simpl.
  by destruct (match_start r x).
Qed.

(** A pattern that does not compile raises as soon as there is a name to
    match it against. *)
Lemma filter_like_invalid (like x : string) (rest : list string) :
  re_compile like = None ->
  filter_like like (x :: rest) = Raise (ReError like).
Proof. intros Hr. simpl. unfold re_match_is_not_None. by rewrite Hr. Qed.

(** C8: with a non-empty pattern [like] that is a regular expression,
    [list_tables] returns the names of the catalog listing that [like]
    matches at their start, in the order of the listing and nothing
    else; without [like] it returns the listing as it is. *)
Theorem C8_list_tables_filters_by_pattern (catalog : Catalog) (like : string)
    (r : regex) (database : option string) :
  like <> "" ->
  re_compile like = Some r ->
  list_tables catalog (Some like) database
    = Ok (List.filter (match_start r) (listTables catalog database))
  /\ list_tables catalog None database = Ok (listTables catalog database).
Proof.
  intros Hne Hr. split; [|done].
  unfold list_tables. destruct like as [|c like']; [done|]. simpl truthy.
  cbv iota. by apply filter_like_compiled.
Qed.

Lemma bool_of_list_filter (f : string -> bool) (l : list string) :
  bool_of_list (List.filter f l) = true <-> exists d, d ∈ l /\ f d = true.
Proof.
  induction l as [|x l IH]; simpl.
  - split; [done|]. intros (d & Hd & _). by apply elem_of_nil in Hd.
  - destruct (f x) eqn:Hx; simpl.
    + split; [|done]. intros _. exists x. split; [left | done].
    + rewrite IH. split.
      * intros (d & Hd & Hf). exists d. split; [by right | done].
      * intros (d & Hd & Hf). apply elem_of_cons in Hd as [->|Hd].
        -- congruence.
        -- by exists d.
Qed.

(** C9: [exists_database name] answers, and answers [True] exactly when
    some database of the catalog listing is matched at its start by
    [name] read as a regular expression (the empty pattern matching
    every name); so it answers [True] for any [name] that matches a
    database at its start, whether or not [name] is itself the name of a
    database. *)
Theorem C9_exists_database_is_a_pattern_match (catalog : Catalog) (name : string)
    (r : regex) :
  re_compile name = Some r ->
  (name = "" -> forall d, match_start r d = true) ->
  (exists b, exists_database catalog name = Ok b
     /\ (b = true <-> exists d, d ∈ listDatabases catalog /\ match_start r d = true))
  /\ (forall d, d ∈ listDatabases catalog -> match_start r d = true ->
        exists_database catalog name = Ok true).
Proof.
  intros Hr Hempty.
  assert (Hex : exists_database catalog name
                = Ok (bool_of_list (List.filter (match_start r)
                                      (listDatabases catalog)))).
  { unfold exists_database, list_databases. destruct name as [|c name'].
    - simpl. f_equal. f_equal.
      induction (listDatabases catalog) as [|x l IH]; simpl; [done|].
      rewrite (Hempty eq_refl x). by rewrite <- IH.
    - simpl truthy. cbv iota. by rewrite filter_like_compiled with (r := r). }
  split.
  - eexists. split; [exact Hex|]. apply bool_of_list_filter.
  - intros d Hd Hm. rewrite Hex. f_equal. apply bool_of_list_filter. eauto.
Qed.

End WithRegex.

Import Examples.

Lemma C8_list_tables_filters_by_pattern_witness :
  list_tables MiniRegex.regex MiniRegex.parse MiniRegex.match_start
    foo_catalog (Some "foo.*") None = Ok ["foo_1"; "foo_2"]
  /\ list_tables MiniRegex.regex MiniRegex.parse MiniRegex.match_start
    foo_catalog None None = Ok ["foo_1"; "bar"; "foo_2"; "xfoo"].
Proof.
  apply (C8_list_tables_filters_by_pattern MiniRegex.regex MiniRegex.parse
           MiniRegex.match_start foo_catalog "foo.*" foo_dot_star None);
    [discriminate | reflexivity].
Defined.

Lemma C9_exists_database_is_a_pattern_match_witness :
  exists_database MiniRegex.regex MiniRegex.parse MiniRegex.match_start
    foo_catalog "foo." = Ok true
  /\ "foo." ∉ listDatabases foo_catalog.
Proof.
  destruct (C9_exists_database_is_a_pattern_match MiniRegex.regex MiniRegex.parse
              MiniRegex.match_start foo_catalog "foo." foo_dot) as [_ H];
    [reflexivity | discriminate |].
  split.
  - apply (H "foobar"); [right; left | reflexivity].
  - intros Hin. apply list_elem_of_In in Hin. simpl in Hin.
    destruct Hin as [Hin|[Hin|[]]]; discriminate Hin.
Defined.

End ListingFacts.

(** ** The cluster client: create_table, insert, execute *)

Section ClientFacts.
Import PySpark.
Context `{C : Collaborators}.
Variable compile_statement : Statement -> string.

Abbreviation create_table := (create_table compile_statement).
Abbreviation insert := (insert compile_statement).
Abbreviation submit := (submit compile_statement).

Lemma submit_log (st : Statement) (log : list call) :
  submit st log
  = (Ok (Cursor (compile_statement st)),
     log ++ [CallCompile st; CallSql (compile_statement st)]).
Proof.
  unfold PySpark.submit, raw_sql, bind, issue, ret. simpl.
  by rewrite <- app_assoc.
Qed.

(** With neither [obj] nor [schema], [create_table] fails with the error
    [Must pass expr or schema] and has issued no call; with [obj] given,
    [schema] is not looked at, so a call with both behaves as the call
    with [obj] alone: it issues its calls and does not fail. *)
Lemma create_table_obj_or_schema (table_name : string)
    (database : option string) (force : bool) (format : string)
    (log : list call) :
  create_table table_name None None database force format log
    = (Raise (IbisError "Must pass expr or schema"), log)
  /\ (forall obj sch,
        create_table table_name (Some obj) (Some sch) database force format log
        = create_table table_name (Some obj) None database force format log)
  /\ (forall obj sch, exists r c log',
        create_table table_name (Some obj) sch database force format log
        = (Ok r, log ++ c :: log')).
Proof.
  split; [done|]. split; [by intros [df|e] sch|].
  intros [df|e] sch; unfold PySpark.create_table, bind, issue, ret; simpl.
  - do 3 eexists. by rewrite <- !app_assoc.
  - do 3 eexists. by rewrite <- !app_assoc.
Qed.

(** *** Schema validation *)

Lemma schema_getitem_named (s : Schema) (n : string) :
  n ∈ names s -> exists t, schema_getitem s n = Ok t.
Proof.
  intros Hn. unfold schema_getitem.
  destruct ((list_to_map s : gmap string dtype) !! n) as [t|] eqn:E; [by exists t|].
  apply not_elem_of_list_to_map in E. by destruct E.
Qed.

Lemma check_casts_unsafe (ns : list string) (from_schema to_schema : Schema) :
  (forall n, n ∈ ns -> n ∈ names from_schema /\ n ∈ names to_schema) ->
  (exists n lt rt, n ∈ ns /\ unsafe_column from_schema to_schema n lt rt) ->
  exists n lt rt,
    unsafe_column from_schema to_schema n lt rt
    /\ check_casts ns from_schema to_schema = Raise (IbisInputError (cast_message lt rt)).
Proof.
  induction ns as [|x ns IH]; intros Hall (n & lt & rt & Hin & Hbad).
  { by apply elem_of_nil in Hin. }
  destruct (Hall x) as [Hxf Hxt]; [left|].
  destruct (schema_getitem_named _ _ Hxf) as [lx Hlx].
  destruct (schema_getitem_named _ _ Hxt) as [rx Hrx].
  simpl. rewrite Hlx, Hrx. simpl.
  destruct (castable lx rx) eqn:Hc; simpl.
  - apply IH.
    + intros m Hm. apply Hall. by right.
    + apply elem_of_cons in Hin as [->|Hin].
      * destruct Hbad as (_ & Hl & Hr & Hcast). congruence.
      * by exists n, lt, rt.
  - exists x, lx, rx. by repeat split.
Qed.

Lemma check_casts_safe (ns : list string) (from_schema to_schema : Schema) :
  (forall n, n ∈ ns -> n ∈ names from_schema /\ n ∈ names to_schema) ->
  (forall n lt rt, ~ unsafe_column from_schema to_schema n lt rt) ->
  check_casts ns from_schema to_schema = Ok tt.
Proof.
  induction ns as [|x ns IH]; intros Hall Hsafe; [done|].
  destruct (Hall x) as [Hxf Hxt]; [left|].
  destruct (schema_getitem_named _ _ Hxf) as [lx Hlx].
  destruct (schema_getitem_named _ _ Hxt) as [rx Hrx].
  simpl. rewrite Hlx, Hrx. simpl.
  destruct (castable lx rx) eqn:Hc; simpl.
  - apply IH; [|done]. intros m Hm. apply Hall. by right.
  - destruct (Hsafe x lx rx). by repeat split.
Qed.

Lemma names_of_equal_sets (a b : Schema) :
  (list_to_set (names a) : gset string) = list_to_set (names b) ->
  forall n, n ∈ names a -> n ∈ names a /\ n ∈ names b.
Proof.
  intros Heq n Hn. split; [done|].
  apply (elem_of_list_to_set (C := gset string)). rewrite <- Heq.
  by apply elem_of_list_to_set.
Qed.

(** C2: a table-expression insert with validation requested (and no
    [values]) whose source schema differs from the destination schema
    fails with [Schemas have different names] when the two sets of column
    names differ; otherwise, when a source column is not safely castable
    to the type of the destination column of that name, it fails with the
    cast error naming the two types of such a column; in both cases no
    call has been issued. When neither is the case the statement is
    compiled and submitted. *)
Theorem C2_insert_validates_before_submitting (self : PySparkTable) (expr : Expr)
    (overwrite : bool) (log : list call) :
  schema_equals (expr_schema expr) (schema self) = false ->
  let from_schema := expr_schema expr in
  let to_schema := schema self in
  let same_names :=
    (list_to_set (names from_schema) : gset string) = list_to_set (names to_schema) in
  let run := insert self (ObjExpr expr) overwrite None true log in
  (~ same_names ->
     run = (Raise (IbisInputError "Schemas have different names"), log))
  /\ (same_names ->
      (exists n lt rt, unsafe_column from_schema to_schema n lt rt) ->
      exists n lt rt,
        unsafe_column from_schema to_schema n lt rt
        /\ run = (Raise (IbisInputError (cast_message lt rt)), log))
  /\ (same_names ->
      (forall n lt rt, ~ unsafe_column from_schema to_schema n lt rt) ->
      let st := InsertSelect (_qualified_name self) (to_ast_query expr) overwrite in
      run = (Ok (Some (Cursor (compile_statement st))),
             log ++ [CallToAst expr; CallCompile st; CallSql (compile_statement st)])).
Proof.
  intros Hneq. cbv zeta. unfold PySpark.insert.
  rewrite Hneq. simpl negb. cbv iota.
  unfold _validate_compatible.
  set (from_schema := expr_schema expr). set (to_schema := schema self).
  split; [|split].
  - intros Hdiff. rewrite bool_decide_eq_false_2 by done. done.
  - intros Hsame Hbad. rewrite bool_decide_eq_true_2 by done. simpl negb. cbv iota.
    destruct (check_casts_unsafe (names from_schema) from_schema to_schema)
      as (n & lt & rt & Hu & Hc).
    { by apply names_of_equal_sets. }
    { destruct Hbad as (n & lt & rt & Hu). exists n, lt, rt. split; [apply Hu | done]. }
    exists n, lt, rt. split; [done|].
    unfold bind, lift. by rewrite Hc.
  - intros Hsame Hsafe. rewrite bool_decide_eq_true_2 by done. simpl negb. cbv iota.
    rewrite check_casts_safe; [|by apply names_of_equal_sets|done].
    unfold bind, lift, issue, ret. rewrite submit_log. simpl.
    by rewrite <- app_assoc.
Qed.

(** C7: [execute] fails with the error naming the type of the expression
    when the expression is none of a table, a column or a scalar; a table
    expression is compiled and materialised; a column expression is named
    [tmp], compiled as a projection, materialised, and its column [tmp] is
    returned; a scalar expression is compiled, a compiled bare column is
    selected from a one-row range first, and the first cell of the
    materialised frame is returned. *)
Theorem C7_execute_dispatch (expr : Expr) (timecontext : option TimeContext)
    (params : option Params) :
  (class_of expr = OtherExpr ->
     execute expr timecontext params
     = Raise (IbisError ("Cannot execute expression of type: " +:+ type_str expr)))
  /\ (class_of expr = TableExpr ->
      forall df, compile expr timecontext params = inl df ->
      execute expr timecontext params = Ok (ExecTable (toPandas df)))
  /\ (class_of expr = ColumnExpr ->
      forall df,
        compile (to_projection (expr_name expr "tmp")) timecontext params = inl df ->
        execute expr timecontext params = Ok (ExecColumn (getitem (toPandas df) "tmp")))
  /\ (class_of expr = ScalarExpr ->
      (forall df, compile expr timecontext params = inl df ->
         execute expr timecontext params = Ok (ExecScalar (iloc (toPandas df) 0 0)))
      /\ (forall col, compile expr timecontext params = inr col ->
            execute expr timecontext params
            = Ok (ExecScalar (iloc (toPandas (range_select 0 1 col)) 0 0)))).
Proof.
  unfold execute. split; [|split; [|split]].
  - by intros ->.
  - by intros -> df ->.
  - by intros -> df ->.
  - intros ->. split.
    + by intros df ->.
    + by intros col ->.
Qed.

End ClientFacts.

Section ClientExamples.
Import PySpark Examples.

Abbreviation run_insert := (insert toy_compile_statement).
Abbreviation run_create_table := (create_table toy_compile_statement).

(** C1 (the code at the failing input): called with both a DataFrame
    [obj] and a [schema], [create_table] raises nothing: it loads the
    DataFrame and saves it as the table; called with both an expression
    and a [schema], it submits a create-table-as-select statement. *)
Theorem C1_create_table_both_supplied :
  run_create_table "t" (Some (ObjDataFrame "df")) (Some [("a", int32)]) None false
    "parquet" []
    = (Ok None, [CallCreateDataFrame "df"; CallSaveAsTable "t" "parquet" "error"])
  /\ run_create_table "t" (Some (ObjExpr staging)) (Some [("a", int32)]) None false
       "parquet" []
     = (Ok (Some (Cursor "CREATE TABLE t AS SELECT * FROM staging")),
        [CallToAst staging;
         CallCompile (CTAS "t" "SELECT * FROM staging" None false "parquet");
         CallSql "CREATE TABLE t AS SELECT * FROM staging"]).
Proof. split; reflexivity. Qed.

Lemma C2_insert_validates_before_submitting_witness :
  run_insert events_renamed (ObjExpr staging) false None true []
    = (Raise (IbisInputError "Schemas have different names"), [])
  /\ (exists n lt rt,
        unsafe_column (toy_schema staging) (schema events_text) n lt rt
        /\ run_insert events_text (ObjExpr staging) false None true []
           = (Raise (IbisInputError (cast_message lt rt)), []))
  /\ run_insert events_wide (ObjExpr staging) false None true []
     = (Ok (Some (Cursor "INSERT INTO analytics.`events` SELECT * FROM staging")),
        [CallToAst staging;
         CallCompile (InsertSelect "analytics.`events`" "SELECT * FROM staging" false);
         CallSql "INSERT INTO analytics.`events` SELECT * FROM staging"]).
Proof.
  split; [|split].
  - destruct (C2_insert_validates_before_submitting toy_compile_statement
                events_renamed staging false []) as (H & _ & _); [reflexivity|].
    apply H. vm_compute. discriminate.
  - destruct (C2_insert_validates_before_submitting toy_compile_statement
                events_text staging false []) as (_ & H & _); [reflexivity|].
    apply H; [reflexivity|].
    exists "a", int32, string_. repeat split. left.
  - destruct (C2_insert_validates_before_submitting toy_compile_statement
                events_wide staging false []) as (_ & _ & H); [reflexivity|].
    apply H; [reflexivity|].
    intros n lt rt (Hn & Hl & Hr & Hc).
    apply list_elem_of_In in Hn. simpl in Hn.
    destruct Hn as [<-|[<-|[]]]; vm_compute in Hl, Hr;
      injection Hl as <-; injection Hr as <-; discriminate Hc.
Defined.

Lemma C7_execute_dispatch_witness :
  execute top_k None None
    = Raise (IbisError "Cannot execute expression of type: TopKExpr")
  /\ execute staging None None = Ok (ExecTable "staging")
  /\ execute amount None None = Ok (ExecColumn "tmp[tmp]")
  /\ execute total None None = Ok (ExecScalar "range.select(total).iloc").
Proof.
  split; [|split; [|split]].
  - destruct (C7_execute_dispatch (C:=toy) top_k None None) as (H & _).
    by apply H.
  - destruct (C7_execute_dispatch (C:=toy) staging None None) as (_ & H & _).
    by apply (H eq_refl "staging").
  - destruct (C7_execute_dispatch (C:=toy) amount None None) as (_ & _ & H & _).
    by apply (H eq_refl "tmp").
  - destruct (C7_execute_dispatch (C:=toy) total None None) as (_ & _ & _ & H).
    destruct (H eq_refl) as [_ H'].
    by apply (H' "total").
Defined.

End ClientExamples.

(** ** The binary-operation table of the pandas backend *)

Section BinaryOperations.
Import PandasConstants.

(** C10: the table maps [IdenticalTo] to the null-safe equality, which is
    true exactly when the operands are equal or both null, and [Equals] to
    the plain equality, which handles no null: NaN is not equal to NaN,
    and [None] is not equal to NaN, though both pairs are identical. *)
Theorem C10_identical_to_is_null_safe_equality :
  call_equality (BINARY_OPERATIONS IdenticalTo) = Some identical_to
  /\ call_equality (BINARY_OPERATIONS Equals) = Some py_eq
  /\ (forall x y,
        identical_to x y = true
        <-> py_eq x y = true \/ (isnull x = true /\ isnull y = true))
  /\ py_eq NaN NaN = false /\ identical_to NaN NaN = true
  /\ py_eq PyNone NaN = false /\ identical_to PyNone NaN = true.
Proof.
  split; [done|]. split; [done|]. split; [|done].
  intros x y. unfold identical_to.
  rewrite orb_true_iff, andb_true_iff. done.
Qed.

End BinaryOperations.

(** * Further properties *)

(** ** The namespace walker, for every directory *)

Section WalkerFacts.
Import Pathlib FileBackend.

Lemma is_file_not_dir fs p : is_file fs p = true -> is_dir fs p = false.
Proof. unfold is_file, is_dir. by destruct (resolve fs p) as [[|es]|]. Qed.

Lemma is_dir_not_file fs p : is_dir fs p = true -> is_file fs p = false.
Proof. unfold is_file, is_dir. by destruct (resolve fs p) as [[|es]|]. Qed.

(** A path that points at a regular file is at table level: it holds no
    database in either mode, and it is itself the one table when its name
    ends with the extension. *)
Theorem listings_at_a_file (c : FileClient) (p : Path) :
  is_file (filesystem c) p = true ->
  _list_databases_dirs c (Some p) = []
  /\ _list_databases_dirs_or_files c (Some p) = []
  /\ _list_tables_files c (Some p)
     = if PyStr.endswith (str p) (extension c) then [stem p] else [].
Proof.
  intros Hf. pose proof (is_file_not_dir _ _ Hf) as Hd.
  unfold _list_databases_dirs, _list_databases_dirs_or_files, _list_tables_files.
  simpl. by rewrite Hd, Hf.
Qed.

Lemma listings_at_a_file_witness :
  _list_databases_dirs Examples.csv_client (Some ["data"; "a.csv"]) = []
  /\ _list_databases_dirs_or_files Examples.csv_client (Some ["data"; "a.csv"]) = []
  /\ _list_tables_files Examples.csv_client (Some ["data"; "a.csv"]) = ["a"].
Proof.
  apply (listings_at_a_file Examples.csv_client ["data"; "a.csv"]). reflexivity.
Defined.

(** The directories-only listing of a directory holds exactly the names of
    its entries that are directories. *)
Theorem list_databases_dirs_spec (c : FileClient) (path : option Path)
    (es : list (string * fsnode)) (n : string) :
  resolve (filesystem c) (path_or_root c path) = Some (Dir es) ->
  n ∈ _list_databases_dirs c path
  <-> n ∈ es.*1 /\ is_dir (filesystem c) (div (path_or_root c path) n) = true.
Proof.
  intros Hres. unfold _list_databases_dirs. simpl.
  rewrite (is_dir_resolve _ _ _ Hres), (iterdir_dir _ _ _ Hres).
  rewrite list_elem_of_In, in_flat_map. split.
  - intros (d & Hd & Hn). apply in_map_iff in Hd as ([m nd] & <- & Hm). simpl in *.
    destruct (is_dir (filesystem c) (div (path_or_root c path) m)) eqn:E; [|done].
    destruct Hn as [<-|[]]. rewrite name_div. split; [|done].
    apply list_elem_of_fmap. exists (m, nd). split; [done|]. by apply list_elem_of_In.
  - intros [Hn Hd]. apply list_elem_of_fmap in Hn as ([m nd] & -> & Hm). simpl in *.
    exists (div (path_or_root c path) m). split.
    + apply in_map_iff. exists (m, nd). split; [done|]. by apply list_elem_of_In.
    + rewrite Hd, name_div. by left.
Qed.

Lemma list_databases_dirs_spec_witness :
  "sub" ∈ _list_databases_dirs Examples.csv_client None
  <-> "sub" ∈ ["a.csv"; "b.csv"; "foo.csv"; "foo"; "sub"]
      /\ is_dir Examples.tree ["data"; "sub"] = true.
Proof.
  apply (list_databases_dirs_spec Examples.csv_client None
           [("a.csv", File); ("b.csv", File); ("foo.csv", File); ("foo", Dir []);
            ("sub", Dir [("inner", Dir []); ("t.csv", File)])] "sub").
  reflexivity.
Defined.

Lemma flat_map_app_Permutation {A B} (f g : A -> list B) (l : list A) :
  flat_map (fun x => f x ++ g x) l ≡ₚ flat_map f l ++ flat_map g l.
Proof.
  induction l as [|x l IH]; simpl; [done|].
  rewrite IH. solve_Permutation.
Qed.

(** Unless the path points at a regular file, the directories-and-files
    listing consists of the directories-only listing and the table listing
    together: every table is a database as well. *)
Theorem list_databases_dirs_or_files_split (c : FileClient) (path : option Path) :
  is_file (filesystem c) (path_or_root c path) = false ->
  _list_databases_dirs_or_files c path
  ≡ₚ _list_databases_dirs c path ++ _list_tables_files c path.
Proof.
  intros Hf.
  unfold _list_databases_dirs_or_files, _list_databases_dirs, _list_tables_files.
  simpl. rewrite Hf.
  destruct (is_dir (filesystem c) (path_or_root c path)); [|done].
  rewrite <- flat_map_app_Permutation.
  erewrite flat_map_ext; [reflexivity|].
  intros d. simpl.
  destruct (is_dir (filesystem c) d) eqn:Ed.
  - by rewrite (is_dir_not_file _ _ Ed).
  - done.
Qed.

Lemma list_databases_dirs_or_files_split_witness :
  _list_databases_dirs_or_files Examples.abs_client None
  ≡ₚ _list_databases_dirs Examples.abs_client None
     ++ _list_tables_files Examples.abs_client None.
Proof.
  apply (list_databases_dirs_or_files_split Examples.abs_client None). reflexivity.
Defined.

(** In directories-only mode, looking a name up at the root (no path
    given) finds it exactly when it is listed there, and the node is then
    bound to the directory of that name under the root, which exists. *)
Theorem database_at_root (c : FileClient) (name : string) :
  list_databases_impl c = DatabasesDirs ->
  (name ∈ _list_databases_dirs c None ->
     database c (Some name) None
     = Ok {| db_name := name; db_client := c; db_path := Some (div (root c) name) |}
     /\ is_dir (filesystem c) (div (root c) name) = true)
  /\ (name ∉ _list_databases_dirs c None ->
      database c (Some name) None = Raise (AttributeError name)).
Proof.
  intros Hmode.
  assert (Hl : list_databases c None = Ok (_list_databases_dirs c None)).
  { unfold list_databases. by rewrite Hmode. }
  split.
  - intros Hin.
    assert (Hd : is_dir (filesystem c) (div (root c) name) = true).
    { destruct (resolve (filesystem c) (root c)) as [[|es]|] eqn:Hres.
      - unfold _list_databases_dirs, is_dir in Hin. simpl in Hin.
        rewrite Hres in Hin. by apply elem_of_nil in Hin.
      - by destruct (proj1 (list_databases_dirs_spec c None es name Hres) Hin).
      - unfold _list_databases_dirs, is_dir in Hin. simpl in Hin.
        rewrite Hres in Hin. by apply elem_of_nil in Hin. }
    split; [|done].
    by rewrite (database_listed_directory c name None _ Hl Hin Hd).
  - intros Hnot. by apply (database_not_listed c name None _ Hl).
Qed.

Lemma database_at_root_witness :
  database Examples.csv_client (Some "sub") None
    = Ok {| db_name := "sub"; db_client := Examples.csv_client;
            db_path := Some ["data"; "sub"] |}
  /\ database Examples.csv_client (Some "a") None = Raise (AttributeError "a").
Proof.
  destruct (database_at_root Examples.csv_client "sub" eq_refl) as [H _].
  destruct (database_at_root Examples.csv_client "a" eq_refl) as [_ H'].
  split.
  - apply H. right. left.
  - apply H'. intros Hin. apply list_elem_of_In in Hin. simpl in Hin.
    destruct Hin as [Hin|[Hin|[]]]; discriminate Hin.
Defined.

End WalkerFacts.

(** ** The listings of a File Database node *)

Section NamespaceFacts.
Import Pathlib FileBackend FileNamespace.

Lemma sorted_spec (l : list string) :
  StronglySorted String.le (sorted l) /\ sorted l ≡ₚ l.
Proof.
  split; [apply StronglySorted_merge_sort; apply _ | apply merge_sort_Permutation].
Qed.

(** The node's listing of databases (and of tables) is the client's listing
    at the given path, or at the node's own path when none is given, in
    ascending order; an unimplemented client listing raises as it is. *)
Theorem db_listings_sorted (self : FileDatabase) (path : option Path) :
  let at_path := match path with None => db_path self | Some p => Some p end in
  (forall dbs, list_databases (db_client self) at_path = Ok dbs ->
     exists l, db_list_databases self path = Ok l
               /\ StronglySorted String.le l /\ l ≡ₚ dbs)
  /\ (forall tabs, list_tables (db_client self) at_path = Ok tabs ->
        exists l, db_list_tables self path = Ok l
                  /\ StronglySorted String.le l /\ l ≡ₚ tabs)
  /\ (forall e, list_databases (db_client self) at_path = Raise e ->
        db_list_databases self path = Raise e).
Proof.
  intros at_path. unfold db_list_databases, db_list_tables. fold at_path.
  split; [|split].
  - intros dbs ->. exists (sorted dbs). split; [done|]. apply sorted_spec.
  - intros tabs ->. exists (sorted tabs). split; [done|]. apply sorted_spec.
  - by intros e ->.
Qed.

Lemma db_listings_sorted_witness :
  exists l, db_list_tables Examples.data_db (Some ["data"; "sub"]) = Ok l
            /\ StronglySorted String.le l /\ l ≡ₚ ["t"].
Proof.
  destruct (db_listings_sorted Examples.data_db (Some ["data"; "sub"])) as (_ & H & _).
  apply (H ["t"]). reflexivity.
Defined.

(** [dir()] of a node whose client implements both listings is in strictly
    ascending order, so without duplicates, and holds exactly the names that
    are a database or a table at the node's path. *)
Theorem dir_is_the_sorted_union (self : FileDatabase) (dbs tabs : list string) :
  list_databases (db_client self) (db_path self) = Ok dbs ->
  list_tables (db_client self) (db_path self) = Ok tabs ->
  exists l, __dir__ self = Ok l
            /\ StronglySorted String.le l
            /\ NoDup l
            /\ forall n, n ∈ l <-> n ∈ dbs \/ n ∈ tabs.
Proof.
  intros Hd Ht.
  assert (Hp : match db_path self with None => db_path self | Some p => Some p end
               = db_path self) by (by destruct (db_path self)).
  unfold __dir__, db_list_databases, db_list_tables. rewrite Hp, Hd, Ht. simpl.
  eexists. split; [reflexivity|].
  destruct (sorted_spec (elements
    ((list_to_set (sorted dbs) : gset string) ∪ list_to_set (sorted tabs))))
    as [Hs Hperm].
  split; [done|]. split.
  - rewrite Hperm. apply NoDup_elements.
  - intros n. rewrite Hperm, elem_of_elements, elem_of_union, !elem_of_list_to_set.
    by rewrite !(proj2 (sorted_spec _)).
Qed.

Lemma dir_is_the_sorted_union_witness :
  exists l, __dir__ Examples.data_db = Ok l
            /\ StronglySorted String.le l
            /\ NoDup l
            /\ forall n, n ∈ l <-> n ∈ ["foo"; "sub"] \/ n ∈ ["a"; "b"; "foo"].
Proof.
  apply (dir_is_the_sorted_union Examples.data_db); reflexivity.
Defined.

End NamespaceFacts.

(** ** Qualified names, for every name *)

Section QualifierFacts.
Import QualifiedName PySpark.

Lemma rsplit_present sep (s : string) :
  contains sep s = true -> exists a b, rsplit sep s = Some (a, b).
Proof.
  induction s as [|c s IH]; simpl; [done|].
  intros H. destruct (rsplit sep s) as [[a b]|] eqn:E; [by eauto|].
  destruct (bool_decide (c = sep)) eqn:Ec; [by eauto|].
  simpl in H. destruct (IH H) as (a & b & ?). done.
Qed.

Lemma rsplit_contains sep ch (s a b : string) :
  rsplit sep s = Some (a, b) -> contains ch s = false -> contains ch a = false.
Proof.
  revert a. induction s as [|c s IH]; intros a; simpl; [done|].
  intros Hs [Hc Hrest]%orb_false_elim.
  destruct (rsplit sep s) as [[a' b']|] eqn:E.
  - injection Hs as <- <-. simpl. rewrite Hc. by apply IH.
  - destruct (bool_decide (c = sep)); [|done]. by injection Hs as <- <-.
Qed.

Lemma first_line_has_no_newline (s : string) : contains newline (first_line s) = false.
Proof.
  induction s as [|c s IH]; simpl; [done|].
  destruct (bool_decide (c = newline)) eqn:E; simpl; [done|]. by rewrite E.
Qed.

Lemma qualified_form (n d : string) :
  d <> "" -> is_fully_qualified n = false ->
  _fully_qualified_name n (Some d) = d +:+ ".`" +:+ n +:+ "`".
Proof. intros Hd Hq. unfold _fully_qualified_name. rewrite Hq. by destruct d. Qed.

(** The name built from a well-formed table name and database parses back
    to the two. *)
Lemma match_name_qualified (n d : string) :
  n <> "" -> d <> "" ->
  is_fully_qualified n = false ->
  contains newline n = false -> contains newline d = false ->
  _match_name (_fully_qualified_name n (Some d)) = (Some d, Some n).
Proof.
  intros Hn Hd Hq Hnl Hdl. rewrite qualified_form by done.
  unfold _match_name, fully_qualified_re_match.
  rewrite first_line_no_newline by (by rewrite !contains_append, Hnl, Hdl).
  change (d +:+ ".`" +:+ n +:+ "`")
    with (d +:+ String "."%char (String "`"%char (n +:+ "`"))).
  rewrite rsplit_last.
  2:{ simpl. rewrite contains_append. unfold is_fully_qualified in Hq. by rewrite Hq. }
  change (n +:+ "`") with (n +:+ String "`"%char "").
  rewrite rsplit_last by done. by destruct n.
Qed.

(** Qualifying twice with the same database is qualifying once, for every
    name and database; and the result is fully qualified exactly when the
    name was, or a non-empty database is given. *)
Theorem fully_qualified_name_idempotent (name : string) (database : option string) :
  _fully_qualified_name (_fully_qualified_name name database) database
    = _fully_qualified_name name database
  /\ is_fully_qualified (_fully_qualified_name name database)
     = is_fully_qualified name || truthy database.
Proof.
  unfold _fully_qualified_name.
  destruct (is_fully_qualified name) eqn:Hq.
  - by rewrite Hq.
  - destruct database as [[|c db]|]; simpl; rewrite ?Hq; try done.
    pose proof (is_fully_qualified_qualified (String c db) name) as H.
    simpl in H. by rewrite H.
Qed.

(** A qualified name has no database exactly when its first line holds no
    dot, and then the whole of it is the table name. *)
Theorem database_absent_iff_no_dot (s : string) :
  (_database s = None <-> contains "."%char (first_line s) = false)
  /\ (_database s = None -> _unqualified_name s = Some s).
Proof.
  unfold _database, _unqualified_name, _match_name, fully_qualified_re_match.
  destruct (contains "."%char (first_line s)) eqn:Hc.
  - destruct (rsplit_present _ _ Hc) as (a & b & ->).
    destruct b as [|[[] [] [] [] [] [] [] []] inner]; simpl;
      try (split; [split|]; discriminate);
      destruct (rsplit _ inner) as [[q r]|]; simpl; split; (split || idtac); discriminate.
  - rewrite (rsplit_absent _ _ Hc). simpl. by split.
Qed.

End QualifierFacts.

(** ** Renaming and statistics of a table handle *)

Section OpsFacts.
Import QualifiedName PySpark PySparkOps.
Context `{C : Collaborators}.
Variable compile_rename : RenameTable -> string.

Lemma database_has_no_newline (s d : string) :
  _database s = Some d -> contains newline d = false.
Proof.
  unfold _database, _match_name, fully_qualified_re_match.
  destruct (rsplit "."%char (first_line s)) as [[a b]|] eqn:E; [|done].
  assert (Ha : contains newline a = false).
  { eapply rsplit_contains; [exact E | apply first_line_has_no_newline]. }
  destruct b as [|[[] [] [] [] [] [] [] []] inner]; simpl;
    try (by intros [= <-]);
    destruct (rsplit _ inner) as [[q r]|]; simpl; by intros [= <-].
Qed.

(** Renaming a handle that has a non-empty database to a well-formed
    unqualified name submits the one rename statement, from the old
    qualified name to the new name as given, and returns a handle of the
    same schema whose name parses to the same database and the new table
    name. A handle without database is renamed to the new name as it is. *)
Theorem rename_keeps_the_database (self : PySparkTable) (new_name : string)
    (log : list call) :
  let stmt := compile_rename (MkRenameTable (_qualified_name self) new_name) in
  (forall d,
     _database (_qualified_name self) = Some d -> d <> "" ->
     new_name <> "" -> is_fully_qualified new_name = false ->
     contains newline new_name = false ->
     exists new,
       rename compile_rename self new_name log = (Ok new, log ++ [CallSql stmt])
       /\ _database (_qualified_name new) = Some d
       /\ _unqualified_name (_qualified_name new) = Some new_name
       /\ op_name new = _qualified_name new
       /\ schema new = schema self)
  /\ (_database (_qualified_name self) = None ->
      exists new,
        rename compile_rename self new_name log = (Ok new, log ++ [CallSql stmt])
        /\ _qualified_name new = new_name).
Proof.
  intros stmt. split.
  - intros d Hdb Hd Hn Hq Hnl.
    pose proof (database_has_no_newline _ _ Hdb) as Hdl.
    eexists. split; [unfold rename; rewrite Hdb; reflexivity|]. simpl.
    unfold _database, _unqualified_name.
    rewrite match_name_qualified by done. done.
  - intros Hdb. eexists. split; [unfold rename; rewrite Hdb; reflexivity|]. simpl.
    unfold _fully_qualified_name. by destruct (is_fully_qualified new_name).
Qed.

(** Statistics of a handle are computed on its qualified name as it is,
    with [NOSCAN] appended when asked; for a fully-qualified name the
    client's operation gives the same whatever database it is passed. *)
Theorem compute_stats_names_the_handle (self : PySparkTable) (noscan : bool)
    (log : list call) :
  let stmt := "ANALYZE TABLE " +:+ _qualified_name self +:+ " COMPUTE STATISTICS"
              +:+ (if noscan then " NOSCAN" else "") in
  PySparkTable_compute_stats self noscan log = (Ok (Cursor stmt), log ++ [CallSql stmt])
  /\ (is_fully_qualified (_qualified_name self) = true ->
      forall database,
        PySparkClient_compute_stats (_qualified_name self) database noscan log
        = PySparkTable_compute_stats self noscan log).
Proof.
  intros stmt. unfold PySparkTable_compute_stats, PySparkClient_compute_stats.
  split.
  - unfold _fully_qualified_name. by destruct (is_fully_qualified _).
  - intros Hq database. unfold _fully_qualified_name. by rewrite Hq.
Qed.

End OpsFacts.

Section OpsExamples.
Import QualifiedName PySpark PySparkOps Examples MoreExamples.

Lemma rename_keeps_the_database_witness :
  exists new,
    rename toy_compile_rename events_wide "visits" []
      = (Ok new, [CallSql "ALTER TABLE analytics.`events` RENAME TO visits"])
    /\ _database (_qualified_name new) = Some "analytics"
    /\ _unqualified_name (_qualified_name new) = Some "visits"
    /\ op_name new = _qualified_name new
    /\ schema new = schema events_wide.
Proof.
  destruct (rename_keeps_the_database toy_compile_rename events_wide "visits" [])
    as [H _].
  apply (H "analytics"); [reflexivity | discriminate | discriminate | reflexivity
                         | reflexivity].
Defined.

Lemma compute_stats_names_the_handle_witness :
  PySparkClient_compute_stats "analytics.`events`" (Some "other") true []
  = (Ok (Cursor "ANALYZE TABLE analytics.`events` COMPUTE STATISTICS NOSCAN"),
     [CallSql "ANALYZE TABLE analytics.`events` COMPUTE STATISTICS NOSCAN"]).
Proof.
  destruct (compute_stats_names_the_handle events_wide true []) as [H1 H2].
  exact (eq_trans (H2 eq_refl (Some "other")) H1).
Defined.

End OpsExamples.

(** ** Insert, create_table and validation, for every argument *)

Section EffectFacts.
Import PySpark.
Context `{C : Collaborators}.
Variable compile_statement : Statement -> string.


(** Validation passes exactly when the two schemas have the same set of
    column names and no column of the source is unsafe to cast to the
    destination column of its name. *)
Theorem validate_compatible_spec (from_schema to_schema : Schema) :
  _validate_compatible from_schema to_schema = Ok tt
  <-> (list_to_set (names from_schema) : gset string) = list_to_set (names to_schema)
      /\ forall n lt rt, ~ unsafe_column from_schema to_schema n lt rt.
Proof.
  unfold _validate_compatible. split.
  - intros H.
    destruct (decide ((list_to_set (names from_schema) : gset string)
                      = list_to_set (names to_schema))) as [Heq|Hne].
    + split; [done|]. intros n lt rt Hu.
      rewrite bool_decide_eq_true_2 in H by done. simpl in H.
      destruct (check_casts_unsafe (names from_schema) from_schema to_schema)
        as (n' & lt' & rt' & _ & Hc).
      { by apply names_of_equal_sets. }
      { exists n, lt, rt. split; [apply Hu | done]. }
      congruence.
    + by rewrite bool_decide_eq_false_2 in H.
  - intros [Heq Hsafe]. rewrite bool_decide_eq_true_2 by done. simpl.
    apply check_casts_safe; [by apply names_of_equal_sets | done].
Qed.

Lemma unsafe_column_Permutation (f f' t t' : Schema) (n : string) (lt rt : dtype) :
  f ≡ₚ f' -> t ≡ₚ t' -> NoDup (names f) -> NoDup (names t) ->
  unsafe_column f t n lt rt -> unsafe_column f' t' n lt rt.
Proof.
  intros Hf Ht Hnf Hnt (Hn & Hl & Hr & Hc).
  unfold unsafe_column, schema_getitem, names in *.
  rewrite <- (list_to_map_proper (M := gmap string) f f' Hnf Hf).
  rewrite <- (list_to_map_proper (M := gmap string) t t' Hnt Ht).
  rewrite <- Hf. done.
Qed.

(** Validation does not depend on the order of the columns: reordering the
    columns of the source or of the destination, each with distinct names,
    does not change whether validation passes. *)
Theorem validate_compatible_ignores_column_order (f f' t t' : Schema) :
  f ≡ₚ f' -> t ≡ₚ t' -> NoDup (names f) -> NoDup (names t) ->
  (_validate_compatible f t = Ok tt <-> _validate_compatible f' t' = Ok tt).
Proof.
  intros Hf Ht Hnf Hnt. rewrite !validate_compatible_spec.
  assert (Hnf' : NoDup (names f')) by (unfold names in *; by rewrite <- Hf).
  assert (Hnt' : NoDup (names t')) by (unfold names in *; by rewrite <- Ht).
  assert (Hsf : (list_to_set (names f) : gset string) = list_to_set (names f')).
  { unfold names. by rewrite Hf. }
  assert (Hst : (list_to_set (names t) : gset string) = list_to_set (names t')).
  { unfold names. by rewrite Ht. }
  rewrite Hsf, Hst. split; intros [Heq Hsafe]; (split; [done|]);
    intros n lt rt Hu; apply (Hsafe n lt rt).
  - by apply (unsafe_column_Permutation f' f t' t).
  - by apply (unsafe_column_Permutation f f' t t').
Qed.

End EffectFacts.

Section EffectExamples.
Import PySpark Examples MoreExamples.

Lemma validate_compatible_ignores_column_order_witness :
  _validate_compatible (toy_schema staging) (schema events_wide) = Ok tt
  <-> _validate_compatible (toy_schema staging) (schema events_swapped) = Ok tt.
Proof.
  apply (validate_compatible_ignores_column_order (C:=toy)
           [("a", int32); ("b", string_)] [("a", int32); ("b", string_)]
           [("a", int64); ("b", string_)] [("b", string_); ("a", int64)]).
  - reflexivity.
  - apply perm_swap.
  - by apply (bool_decide_unpack _).
  - by apply (bool_decide_unpack _).
Defined.

End EffectExamples.

(** ** Catalog listings, for every pattern *)

Section ListingEdgeFacts.
Import PySpark.

Section WithRegex.
Variable regex : Type.
Variable re_compile : string -> option regex.
Variable match_start : regex -> string -> bool.

Abbreviation filter_like := (filter_like regex re_compile match_start).
Abbreviation list_tables := (list_tables regex re_compile match_start).
Abbreviation list_databases := (list_databases regex re_compile match_start).
Abbreviation exists_database := (exists_database regex re_compile match_start).

Lemma filter_like_sublist (like : string) (results l : list string) :
  filter_like like results = Ok l -> sublist l results.
Proof.
  revert l. induction results as [|x rest IH]; intros l; simpl.
  - intros [= <-]. constructor.
  - destruct (re_match_is_not_None regex re_compile match_start like x) as [b|e];
      simpl; [|done].
    destruct (filter_like like rest) as [kept|e]; simpl; [|done].
    intros [= <-]. destruct b; [apply sublist_skip | apply sublist_cons]; by apply IH.
Qed.

(** Whatever the pattern, a listing that is returned holds names of the
    catalog listing only, in their order there; and the empty pattern
    filters nothing. *)
Theorem listings_are_sublists (catalog : Catalog) (like : option string)
    (database : option string) :
  (forall l, list_tables catalog like database = Ok l ->
     sublist l (listTables catalog database))
  /\ (forall l, list_databases catalog like = Ok l ->
        sublist l (listDatabases catalog))
  /\ list_tables catalog (Some "") database = Ok (listTables catalog database)
  /\ list_databases catalog (Some "") = Ok (listDatabases catalog).
Proof.
  unfold list_tables, list_databases. repeat split.
  - intros l. destruct like as [[|c p]|]; simpl; try by intros [= <-].
    apply filter_like_sublist.
  - intros l. destruct like as [[|c p]|]; simpl; try by intros [= <-].
    apply filter_like_sublist.
Qed.

(** The edges of [exists_database]: on a catalog without databases it
    answers [False] for every name, a name that is no regular expression
    included; on any other catalog such a name raises the error of the
    regex module; and for the empty name it answers whether the catalog has
    a database at all. *)
Theorem exists_database_edges (catalog : Catalog) (name : string) :
  (listDatabases catalog = [] -> exists_database catalog name = Ok false)
  /\ (listDatabases catalog <> [] -> name <> "" -> re_compile name = None ->
      exists_database catalog name = Raise (ReError name))
  /\ exists_database catalog "" = Ok (bool_of_list (listDatabases catalog)).
Proof.
  unfold exists_database, list_databases. split; [|split].
  - intros ->. by destruct name.
  - intros Hne Hname Hre. destruct name as [|c p]; [done|]. simpl truthy. cbv iota.
    destruct (listDatabases catalog) as [|x rest]; [done|].
    by rewrite filter_like_invalid.
  - done.
Qed.

End WithRegex.

Import Examples MoreExamples.

Lemma listings_are_sublists_witness :
  sublist ["foo_1"; "foo_2"] (listTables foo_catalog None).
Proof.
  destruct (listings_are_sublists MiniRegex.regex MiniRegex.parse MiniRegex.match_start
              foo_catalog (Some "foo.*") None) as (H & _).
  apply H. reflexivity.
Defined.

Lemma exists_database_edges_witness :
  exists_database MiniRegex.regex MiniRegex.parse MiniRegex.match_start
    empty_catalog "(" = Ok false
  /\ exists_database MiniRegex.regex MiniRegex.parse MiniRegex.match_start
       foo_catalog "(" = Raise (ReError "(").
Proof.
  split.
  - destruct (exists_database_edges MiniRegex.regex MiniRegex.parse
                MiniRegex.match_start empty_catalog "(") as (H & _).
    apply H. reflexivity.
  - destruct (exists_database_edges MiniRegex.regex MiniRegex.parse
                MiniRegex.match_start foo_catalog "(") as (_ & H & _).
    apply H; [discriminate | discriminate | reflexivity].
Defined.

End ListingEdgeFacts.

(** ** The pandas constants *)

Section ConstantsFacts.
Import PandasConstants JoinSuffixes.

Lemma py_eq_sym (x y : scalar) : py_eq x y = py_eq y x.
Proof.
  destruct x, y; simpl; try done.
  - apply Z.eqb_sym.
  - apply Z.eqb_sym.
  - apply bool_decide_ext. naive_solver.
  - apply Z.eqb_sym.
  - apply bool_decide_ext. naive_solver.
Qed.

(** The null-safe equality is an equivalence on scalars: reflexive (also
    on NaN, where the plain equality is not), symmetric and transitive; and
    it is the plain equality unless both operands are null. *)
Theorem identical_to_is_an_equivalence :
  (forall x, identical_to x x = true)
  /\ (forall x y, identical_to x y = identical_to y x)
  /\ (forall x y z, identical_to x y = true -> identical_to y z = true ->
        identical_to x z = true)
  /\ (forall x y, isnull x && isnull y = false -> identical_to x y = py_eq x y)
  /\ py_eq NaN NaN = false.
Proof.
  split; [|split; [|split; [|split]]].
  - intros [| |z|s|b]; unfold identical_to; simpl; try done.
    + by rewrite Z.eqb_refl.
    + by rewrite bool_decide_eq_true_2.
    + by rewrite bool_decide_eq_true_2.
  - intros x y. unfold identical_to. by rewrite py_eq_sym, (andb_comm (isnull x)).
  - intros x y z. unfold identical_to.
    destruct x as [| |x|x|x], y as [| |y|y|y], z as [| |z|z|z]; simpl;
      rewrite ?orb_false_r; try done;
      rewrite ?bool_decide_eq_true, ?Z.eqb_eq; intros H1 H2; subst; try done;
      repeat match goal with b : bool |- _ => destruct b end;
      simpl in *; congruence.
  - intros x y H. unfold identical_to. by rewrite H, orb_false_r.
  - done.
Qed.

(** Whatever the two guids are, the two join suffixes differ, and the table
    of alternates swaps them: it maps each to the other, it holds nothing
    else, and looking up twice gives back the suffix one started with. *)
Theorem alternate_suffixes_swap (guid_left guid_right : string) :
  let L := LEFT_JOIN_SUFFIX guid_left in
  let R := RIGHT_JOIN_SUFFIX guid_right in
  let alt := ALTERNATE_SUFFIXES guid_left guid_right in
  L <> R
  /\ alt !! L = Some R /\ alt !! R = Some L
  /\ dom alt = {[L; R]}
  /\ (forall s t, alt !! s = Some t -> alt !! t = Some s).
Proof.
  intros L R alt.
  assert (Hne : L <> R).
  { unfold L, R, LEFT_JOIN_SUFFIX, RIGHT_JOIN_SUFFIX. simpl. congruence. }
  assert (HL : alt !! L = Some R).
  { unfold alt, ALTERNATE_SUFFIXES. fold L R.
    rewrite lookup_insert_ne by done. by rewrite lookup_insert_eq. }
  assert (HR : alt !! R = Some L).
  { unfold alt, ALTERNATE_SUFFIXES. fold L R. by rewrite lookup_insert_eq. }
  split; [done|]. split; [done|]. split; [done|]. split.
  - unfold alt, ALTERNATE_SUFFIXES. fold L R.
    rewrite !dom_insert_L, dom_empty_L. apply set_eq. intros x.
    rewrite !elem_of_union, elem_of_empty, !elem_of_singleton. tauto.
  - intros s t Hs. unfold alt, ALTERNATE_SUFFIXES in Hs. fold L R in Hs.
    apply lookup_insert_Some in Hs as [[<- <-]|[Hne' Hs]]; [done|].
    apply lookup_insert_Some in Hs as [[<- <-]|[_ Hs]]; [done|].
    by rewrite lookup_empty in Hs.
Qed.

End ConstantsFacts.

(** ** Existence of a table *)

Section CatalogLookupFacts.
Import QualifiedName PySpark PySparkOps.
Variable getTable : string -> string + JTable.


End CatalogLookupFacts.

Section CatalogLookupExamples.
Import PySpark PySparkOps MoreExamples.


End CatalogLookupExamples.
